(** * ANCOVA.js: a shallow embedding of [AncovaAnalysis] and its properties

    The development follows src/src/ANCOVA.js.  JavaScript numbers are
    IEEE-754 binary64 values and are modelled by Rocq's primitive floats,
    whose operations round exactly as the JavaScript ones do.  The jStat
    object is an argument of [_fitModel] and [_partialFTest] in the source
    and is an argument here.  The column arrays and the [_data] object of a
    DataFrame live in a store, so that sharing between the input frame and
    the encoded frame is visible. *)

From Stdlib Require Import ZArith List String Ascii Floats Uint63 Lia.
From Stdlib Require Import DecimalString OrderedTypeEx Sorted.
From stdpp Require Import base option list gmap strings fin_maps.

Local Open Scope string_scope.
Local Open Scope Z_scope.

(** ** JavaScript values and primitive conversions *)

(** The values a DataFrame cell or a matrix cell may hold: [undefined]
    (the result of reading past the end of an array), a Number, a String. *)
Inductive value : Type :=
  | VUndef
  | VNum (x : float)
  | VStr (s : string).

(** Thrown values.  ANCOVA.js throws [new Error(message)] itself; the
    engine throws a TypeError when a property of [undefined] is read or
    [undefined] is iterated. *)
Inductive exn : Type :=
  | Error (message : string)
  | TypeError.

Definition result (A : Type) : Type := (exn + A)%type.

Definition is_nan (x : float) : bool := negb (PrimFloat.eqb x x).

(** An array length or an index difference as a Number (exact below 2^53). *)
Definition num_of_Z (z : Z) : float :=
  if z <? 0 then PrimFloat.opp (PrimFloat.of_uint63 (Uint63.of_Z (- z)))
  else PrimFloat.of_uint63 (Uint63.of_Z z).

(** The two conversions of the language that are not arithmetic:
    Number::toString and StringToNumber.  They belong to the engine, not
    to the repository, and every definition below takes them as given. *)
Record Engine : Type := {
  NumberToString : float -> string;
  StringToNumber : string -> float
}.

Section Conversions.
Context (E : Engine).

(** ToString, as used by template literals and by the default sort. *)
Definition ToString (v : value) : string :=
  match v with
  | VUndef => "undefined"
  | VNum x => NumberToString E x
  | VStr s => s
  end.

(** ToNumber, applied by [*] and [-] to their operands. *)
Definition ToNumber (v : value) : float :=
  match v with
  | VUndef => nan
  | VNum x => x
  | VStr s => StringToNumber E s
  end.
End Conversions.

(** [a === b] *)
Definition strict_eq (a b : value) : bool :=
  match a, b with
  | VUndef, VUndef => true
  | VNum x, VNum y => PrimFloat.eqb x y
  | VStr s, VStr t => String.eqb s t
  | _, _ => false
  end.

(** SameValueZero, the equality of [Set]: as [===] but NaN equals NaN. *)
Definition same_value_zero (a b : value) : bool :=
  match a, b with
  | VNum x, VNum y => PrimFloat.eqb x y || (is_nan x && is_nan y)
  | _, _ => strict_eq a b
  end.

(** ** Loops and array reads *)

(** [for (let i = 0; i < n; i++) body(i)] over a state [S]. *)
Fixpoint for_range {S : Type} (n : nat) (body : nat -> S -> S) (s : S) : S :=
  match n with
  | O => s
  | Datatypes.S m => body m (for_range m body s)
  end.

(** [a[i]] used as an operand of arithmetic: a missing element is
    [undefined], which ToNumber turns into NaN. *)
Definition num_at (a : list float) (i : nat) : float := default nan (a !! i).

(** [X[i][j]] for an existing row [i]. *)
Definition cell_at (X : list (list value)) (i j : nat) : value :=
  default VUndef (X !! i ≫= (.!! j)).

(** [row.reduce((acc, val, idx) => f(acc, val, idx), init)] *)
Fixpoint reduce_from {A B : Type} (f : B -> A -> nat -> B) (idx : nat)
    (l : list A) (acc : B) : B :=
  match l with
  | [] => acc
  | val :: l' => reduce_from f (Datatypes.S idx) l' (f acc val idx)
  end.

Definition reduce {A B : Type} (f : B -> A -> nat -> B) (init : B) (l : list A) : B :=
  reduce_from f 0%nat l init.

(** ** jStat *)

(** The four jStat entry points the module calls: [jStat.det],
    [jStat.inv], [jStat.studentt.cdf] and [jStat.centralF.cdf]. *)
Record JStat : Type := {
  det : list (list float) -> float;
  inv : list (list float) -> list (list float);
  studentt_cdf : float -> float -> float;
  centralF_cdf : float -> float -> float -> float
}.

(** ** The fitted model *)

Record FittedModel : Type := {
  beta : list float;
  se : list float;
  tStats : list float;
  pValues : list float;
  yhat : list float;
  residuals : list float;
  rss : float;
  df : Z;
  s2 : float;
  XtX_inv : list (list float)
}.

Definition singular_message : string := "X^T X is singular or nearly singular".

(** The error of lines 154-156. *)
Definition SingularMatrixError : exn := Error singular_message.

(** The literal [1e-12] of line 154, as the binary64 value it denotes. *)
Definition tolerance : float := 0x1.19799812dea11p-40%float.

Section Fitter.
Context (E : Engine).

Definition xnum (X : list (list value)) (i j : nat) : float :=
  ToNumber E (cell_at X i j).

(** Lines 142-151: [XtX[j][k] += X[i][j] * X[i][k]] in a triple loop
    over a [p] by [p] array of zeros. *)
Definition gram (X : list (list value)) (n p : nat) : list (list float) :=
  for_range n (fun i =>
    for_range p (fun j =>
      for_range p (fun k =>
        alter (alter (fun a => (a + xnum X i j * xnum X i k)%float) k) j)))
    (replicate p (replicate p 0%float)).

(** Lines 159-164: [XtY[j] += X[i][j] * y[i]]. *)
Definition cross (X : list (list value)) (y : list value) (n p : nat) : list float :=
  for_range n (fun i =>
    for_range p (fun j =>
      alter (fun a => (a + xnum X i j * ToNumber E (default VUndef (y !! i)))%float) j))
    (replicate p 0%float).

(** The Gram matrix the fitter hands to [jStat.det] for the design [X]:
    [n = X.length], [p = X[0].length]. *)
Definition XtX (X : list (list value)) : list (list float) :=
  gram X (length X) (length (default [] (head X))).

Definition _fitModel (X : list (list value)) (y : list value) (jStat : JStat)
    : result FittedModel :=
  match X with
  | [] => inl TypeError                      (* X[0].length of undefined *)
  | row0 :: _ =>
    let n := length X in
    let p := length row0 in
    let XtX := gram X n p in
    if PrimFloat.ltb (PrimFloat.abs (det jStat XtX)) tolerance
    then inl SingularMatrixError
    else
      let XtY := cross X y n p in
      let XtX_inv := inv jStat XtX in
      let beta := map (fun row =>
        reduce (fun acc val idx => (acc + val * num_at XtY idx)%float) 0%float row)
        XtX_inv in
      let yhat := map (fun row =>
        reduce (fun acc val idx => (acc + ToNumber E val * num_at beta idx)%float) 0%float row)
        X in
      let residuals := imap (fun idx val => (ToNumber E val - num_at yhat idx)%float) y in
      let rss := reduce (fun acc r _ => (acc + r * r)%float) 0%float residuals in
      let df := Z.of_nat n - Z.of_nat p in
      let s2 := (rss / num_of_Z df)%float in
      let se := imap (fun i row => PrimFloat.sqrt (s2 * num_at row i)) XtX_inv in
      let tStats := imap (fun i b => (b / num_at se i)%float) beta in
      let pValues := map (fun t =>
        (2 * (1 - studentt_cdf jStat (PrimFloat.abs t) (num_of_Z df)))%float) tStats in
      inr {| beta := beta; se := se; tStats := tStats; pValues := pValues;
             yhat := yhat; residuals := residuals; rss := rss; df := df;
             s2 := s2; XtX_inv := XtX_inv |}
  end.
End Fitter.

(** ** The partial F-test (lines 204-218) *)

Record PartialFTestResult : Type := {
  fStatistic : float;
  pValue : float
}.

(** The degrees of freedom and the number of added parameters reach the
    comparator as integer Numbers ([n - p] and an array length). *)
Definition _partialFTest (RSS_reduced RSS_full : float) (df_reduced df_full : Z)
    (nParamsAdded : Z) (jStat : JStat) : result PartialFTestResult :=
  let numerator := ((RSS_reduced - RSS_full) / num_of_Z nParamsAdded)%float in
  let denominator := (RSS_full / num_of_Z df_full)%float in
  let fStatistic := (numerator / denominator)%float in
  let pValue :=
    (1 - centralF_cdf jStat fStatistic (num_of_Z nParamsAdded) (num_of_Z df_full))%float in
  inr {| fStatistic := fStatistic; pValue := pValue |}.

(** ** The store *)

(** References to heap objects. *)
Abbreviation loc := nat.

(** Two kinds of heap objects matter: arrays of cells (the columns) and
    the plain objects that map column names to arrays (the [_data] of a
    DataFrame, and its spread copy). *)
Record store : Type := {
  arrays : gmap loc (list value);
  objects : gmap loc (gmap string loc)
}.

(** Computations that read and extend the store and may throw; the store
    reached when the exception is thrown is kept. *)
Definition M (A : Type) : Type := store -> result A * store.

#[export] Instance M_ret : MRet M := fun A (a : A) s => (inr a, s).

#[export] Instance M_bind : MBind M := fun A B (f : A -> M B) (m : M A) s =>
  match m s with
  | (inl e, s') => (inl e, s')
  | (inr a, s') => f a s'
  end.

Definition throw {A : Type} (e : exn) : M A := fun s => (inl e, s).

Definition lift {A : Type} (r : result A) : M A := fun s => (r, s).

(** The current store, for reads. *)
Definition get_store : M store := fun s => (inr s, s).

(** [new Float64Array(...)]: a fresh array. *)
Definition alloc_array (vs : list value) : M loc := fun s =>
  let r := fresh (dom (arrays s)) in
  (inr r, {| arrays := <[r := vs]> (arrays s); objects := objects s |}).

(** [{ ...o }]: a fresh object with the given properties. *)
Definition alloc_object (m : gmap string loc) : M loc := fun s =>
  let r := fresh (dom (objects s)) in
  (inr r, {| arrays := arrays s; objects := <[r := m]> (objects s) |}).

(** [o[k] = r] *)
Definition object_set (o : loc) (k : string) (r : loc) : M unit := fun s =>
  (inr tt, {| arrays := arrays s; objects := alter (<[k := r]>) o (objects s) |}).

(** The properties of the object [o]; reading a property of a missing
    object is a TypeError. *)
Definition read_object (o : loc) : M (gmap string loc) := fun s =>
  match objects s !! o with
  | Some m => (inr m, s)
  | None => (inl TypeError, s)
  end.

(** Monadic [for (let i = 0; i < n; i++)] and [forEach((x, j) => ...)]. *)
Fixpoint for_rangeM {S : Type} (n : nat) (body : nat -> S -> M S) (s : S) : M S :=
  match n with
  | O => mret s
  | Datatypes.S m => for_rangeM m body s ≫= body m
  end.

Fixpoint forEach_from {A S : Type} (body : A -> nat -> S -> M S) (j : nat)
    (l : list A) (s : S) : M S :=
  match l with
  | [] => mret s
  | x :: l' => body x j s ≫= forEach_from body (Datatypes.S j) l'
  end.

Definition forEach {A S : Type} (body : A -> nat -> S -> M S) (l : list A) (s : S) : M S :=
  forEach_from body 0%nat l s.

(** ** The DataFrame *)

(** Modelled from the spec: the DataFrame class, which ANCOVA.js imports
    from DataFrame.js, is not among the sources.  A frame keeps its columns in the object [_data]
    (name to array), a declared type per column in [_types], and the row
    count in [_length]; these are the three properties ANCOVA.js reads. *)
Record DataFrame : Type := {
  _data : loc;
  _types : gmap string string;
  _length : nat
}.

(** [frame._data[name]]: the column as the array it currently is, or
    [None] for [undefined].  The lookup is among the properties the
    [_data] object has itself.  A name that every object inherits
    ([toString], [constructor], ...; see [Object_prototype_names] below)
    and that is not a column reads in JavaScript as the inherited
    property and not as [undefined]; such names are outside this model,
    and the statements about names of no column are made for the other
    names. *)
Definition get_column (frame : DataFrame) (name : string) : M (option (list value)) :=
  m ← read_object (_data frame);
  s ← get_store;
  mret (m !! name ≫= (arrays s !!.)).

Definition is_number (v : value) : bool :=
  match v with VNum _ => true | _ => false end.

Definition column_type (vs : list value) : string :=
  if forallb is_number vs then "number" else "string".

(** Modelled from the spec: [new DataFrame(columns)] for a column-keyed
    object (DataFrame.js is not among the sources, and the specification
    does not describe the constructor).  The model takes the simplest
    frame over the given object: it serves the given columns under their
    names, declares each column numeric or not by its cells, and has as
    row count the length of its columns (the longest one, should they
    differ); it changes nothing in the store and does not throw.  These
    are assumptions about DataFrame.js, not facts read off ANCOVA.js. *)
Definition DataFrame_new (columns : loc) : M DataFrame :=
  m ← read_object columns;
  s ← get_store;
  let cols : gmap string (list value) := omap (arrays s !!.) m in
  mret {| _data := columns;
          _types := column_type <$> cols;
          _length := map_fold (fun _ c n => Nat.max (length c) n) 0%nat cols |}.

(** ** [new Set(iterable)] and the default [sort()] *)

(** [Set.prototype.add] stores +0 for -0. *)
Definition set_key (v : value) : value :=
  match v with
  | VNum x => if PrimFloat.eqb x 0 then VNum 0 else v
  | _ => v
  end.

(** [[...new Set(vs)]]: the values of [vs] in order of first occurrence,
    without repetition up to SameValueZero. *)
Definition set_add (acc : list value) (v : value) : list value :=
  if existsb (same_value_zero v) acc then acc else acc ++ [set_key v].

Definition spread_set (vs : list value) : list value := fold_left set_add vs [].

Section Sort.
Context (E : Engine).

(** SortCompare without a comparison function: [undefined] goes last,
    everything else is ordered by its string form, code unit by code
    unit (characters of a Rocq string are single bytes). *)
Definition sort_compare (x y : value) : comparison :=
  match x, y with
  | VUndef, VUndef => Eq
  | VUndef, _ => Gt
  | _, VUndef => Lt
  | _, _ => String.compare (ToString E x) (ToString E y)
  end.

(** [Array.prototype.sort] is stable, which fixes its result: it is the
    one a stable insertion sort computes. *)
Fixpoint sort_insert (x : value) (l : list value) : list value :=
  match l with
  | [] => [x]
  | h :: t =>
    match sort_compare x h with
    | Gt => h :: sort_insert x t
    | _ => x :: h :: t
    end
  end.

Fixpoint sort (l : list value) : list value :=
  match l with
  | [] => []
  | x :: l' => sort_insert x (sort l')
  end.
End Sort.

(** ** The analysis object *)

(** The properties the constructor sets on [this]; [this_df] is [this.df]
    (the name [df] is taken by the degrees of freedom of a fitted model). *)
Record AncovaAnalysis : Type := {
  this_df : DataFrame;
  dependentVar : string;
  covariates : list string;
  groupVar : string
}.

(** The [options] argument: [covariates] is one name or an array of names. *)
Record Options : Type := {
  opt_dependentVar : string;
  opt_covariates : string + list string;
  opt_groupVar : string
}.

(** The [data] argument as the constructor tells its cases apart: [null]
    or [undefined], some other value that is not a DataFrame, a DataFrame. *)
Inductive data_arg : Type :=
  | DataNullish
  | DataOther
  | DataIsFrame (frame : DataFrame).

Record AncovaResult : Type := {
  reducedModel : FittedModel;
  fullModel : FittedModel;
  partialF : PartialFTestResult;
  levels : list value
}.

Section Ancova.
Context (E : Engine).

(** Lines 63-92. *)
Definition _validateInputs (this : AncovaAnalysis) : M unit :=
  dep ← get_column (this_df this) (dependentVar this);
  if dep is None then
    throw (Error ("Dependent variable '" ++ dependentVar this ++ "' not found in DataFrame"))
  else if negb (bool_decide (_types (this_df this) !! dependentVar this = Some "number")) then
    throw (Error ("Dependent variable '" ++ dependentVar this ++ "' must be numeric"))
  else
    forEach (fun covar (_ : nat) (_ : unit) =>
      c ← get_column (this_df this) covar;
      if c is None then
        throw (Error ("Covariate '" ++ covar ++ "' not found in DataFrame"))
      else if negb (bool_decide (_types (this_df this) !! covar = Some "number")) then
        throw (Error ("Covariate '" ++ covar ++ "' must be numeric"))
      else mret tt) (covariates this) tt ;;
    g ← get_column (this_df this) (groupVar this);
    if g is None then
      throw (Error ("Group variable '" ++ groupVar this ++ "' not found in DataFrame"))
    else mret tt.

(** Lines 5-23.  [Object.keys(data)] on line 9 throws a TypeError for
    [null] and [undefined], before the [instanceof] test of line 11. *)
Definition constructor (data : data_arg) (options : Options) : M AncovaAnalysis :=
  match data with
  | DataNullish => throw TypeError
  | DataOther => throw (Error "data must be a DataFrame instance")
  | DataIsFrame frame =>
    let this := {| this_df := frame;
                   dependentVar := opt_dependentVar options;
                   covariates := match opt_covariates options with
                                 | inr names => names
                                 | inl name => [name]
                                 end;
                   groupVar := opt_groupVar options |} in
    _validateInputs this ;;
    mret this
  end.

(** [`${this.groupVar}_${level}`] *)
Definition dummyName (this : AncovaAnalysis) (level : value) : string :=
  groupVar this ++ "_" ++ ToString E level.

(** Lines 94-113.  [new Set(undefined)] is the empty set. *)
Definition _encodeDummies (this : AncovaAnalysis) : M (DataFrame * list value) :=
  g ← get_column (this_df this) (groupVar this);
  let levels := sort E (spread_set (default [] g)) in
  props ← read_object (_data (this_df this));
  dummyData ← alloc_object props;
  forEach (fun level (_ : nat) (_ : unit) =>
    col ← get_column (this_df this) (groupVar this);
    match col with
    | None => throw TypeError
    | Some vals =>
      r ← alloc_array
            (map (fun val => if strict_eq val level then VNum 1 else VNum 0) vals);
      object_set dummyData (dummyName this level) r
    end) (tail levels) tt ;;
  encodedData ← DataFrame_new dummyData;
  mret (encodedData, levels).

(** Lines 115-135. *)
Definition _buildDesignMatrix (this : AncovaAnalysis) (frame : DataFrame)
    (predictors : list string) : M (list (list value) * list value) :=
  let n := _length frame in
  let p := (length predictors + 1)%nat in
  X ← forEach (fun pred j =>
         for_rangeM n (fun i (X : list (list value)) =>
           col ← get_column frame pred;
           match col with
           | None => throw TypeError
           | Some vals =>
             mret (alter (<[(j + 1)%nat := default VUndef (vals !! i)]>) i X)
           end))
       predictors (replicate n (replicate p (VNum 1)));
  dep ← get_column frame (dependentVar this);
  match dep with
  | None => throw TypeError                   (* Array.from(undefined) *)
  | Some y => mret (X, y)
  end.

(** Lines 27-61: the body of [analyze] once [await require("jstat@1.9.4")]
    of line 26 has resolved to [jStat].  A rejection of that promise,
    which makes [analyze] fail before anything else runs, is not part of
    the model, nor are exceptions thrown inside jStat. *)
Definition analyze (this : AncovaAnalysis) (jStat : JStat) : M AncovaResult :=
  '(encodedData, levels) ← _encodeDummies this;
  let dummyCols := map (dummyName this) (tail levels) in
  reducedDesign ← _buildDesignMatrix this encodedData (covariates this);
  reducedModel ← lift (_fitModel E reducedDesign.1 reducedDesign.2 jStat);
  fullDesign ← _buildDesignMatrix this encodedData (covariates this ++ dummyCols);
  fullModel ← lift (_fitModel E fullDesign.1 fullDesign.2 jStat);
  partialF ← lift (_partialFTest (rss reducedModel) (rss fullModel)
                      (df reducedModel) (df fullModel)
                      (Z.of_nat (length dummyCols)) jStat);
  mret {| reducedModel := reducedModel; fullModel := fullModel;
          partialF := partialF; levels := levels |}.
End Ancova.

(** ** A concrete engine and a concrete jStat for the examples *)

Module Sample.

(** Number::toString on NaN, the infinities and the integers below
    2^53, which print as plain decimal numerals; the examples apply it
    to small integers only (other arguments give [""]). *)
Definition integer_to_string (x : float) : string :=
  match Prim2SF x with
  | S754_nan => "NaN"
  | S754_infinity false => "Infinity"
  | S754_infinity true => "-Infinity"
  | S754_zero _ => "0"
  | S754_finite s m e =>
    let sign := if s then "-" else "" in
    match e with
    | Z0 => sign ++ NilZero.string_of_uint (Pos.to_uint m)
    | Zpos k => ""
    | Zneg k =>
      if (Z.pos m mod 2 ^ Z.pos k =? 0)%Z
      then sign ++ NilZero.string_of_uint (N.to_uint (Z.to_N (Z.pos m / 2 ^ Z.pos k)))
      else ""
    end
  end.

(** StringToNumber on strings that are not numerals, the only ones the
    examples hold. *)
Definition non_numeral_to_number (s : string) : float := nan.

Definition engine : Engine :=
  {| NumberToString := integer_to_string; StringToNumber := non_numeral_to_number |}.

Definition remove_at {A : Type} (i : nat) (l : list A) : list A :=
  take i l ++ drop (Datatypes.S i) l.

Definition sign_of (j : nat) : float := if Nat.even j then 1%float else (-1)%float.

(** Determinant by cofactor expansion along the first row.  This and
    [adjugate_inv] are textbook stand-ins that make the examples
    computable; they are not the algorithms of the jStat library (its
    determinant is [jstat_det] below). *)
Fixpoint det_rec (size : nat) (a : list (list float)) : float :=
  match size, a with
  | Datatypes.S size', row0 :: rest =>
    reduce (fun acc x j =>
      (acc + sign_of j * x * det_rec size' (map (remove_at j) rest))%float) 0%float row0
  | _, _ => 1%float
  end.

Definition cofactor_det (a : list (list float)) : float := det_rec (length a) a.

(** Inverse as the transposed cofactor matrix over the determinant. *)
Definition adjugate_inv (a : list (list float)) : list (list float) :=
  let d := cofactor_det a in
  imap (fun i row =>
    imap (fun j _ =>
      (sign_of (i + j) * cofactor_det (map (remove_at i) (remove_at j a)) / d)%float) row) a.

(** The distribution functions are placeholders: no example depends on
    a p-value. *)
Definition jStat : JStat :=
  {| det := cofactor_det;
     inv := adjugate_inv;
     studentt_cdf := fun _ _ => 0.5%float;
     centralF_cdf := fun _ _ _ => 0.5%float |}.

(** [jStat.det] as jStat 1.9.4 computes it (linearalgebra.js).  For a 2
    by 2 matrix it is the closed form.  Otherwise [vals], an array of
    [2 * alen] ones, collects in its first half the products along the
    wrapped diagonals and in its second half the products along the
    wrapped anti-diagonals, [mrow] and [mcol] being the two slots the cell
    [a[i][j]] is multiplied into; the result is the sum of the first half
    minus the sum of the second half. *)
Definition jstat_det (a : list (list float)) : float :=
  let alen := Z.of_nat (length a) in
  let alend := alen * 2 in
  let cell (i j : nat) : float := num_at (default [] (a !! i)) j in
  if alen =? 2 then
    (cell 0%nat 0%nat * cell 1%nat 1%nat - cell 0%nat 1%nat * cell 1%nat 0%nat)%float
  else
    let times (x : float) (slot : Z) (vals : list float) : list float :=
      alter (fun v => (v * x)%float) (Z.to_nat slot) vals in
    let '(vals, _, _) :=
      for_range (length a) (fun i '(vals, rowshift, colshift) =>
        let '(vals, _, _) :=
          for_range (length a) (fun j '(vals, mrow, mcol) =>
            (times (cell i j) (if mcol <? alen then mcol + alen else mcol)
               (times (cell i j) (if mrow <? 0 then mrow + alen else mrow) vals),
             mrow + 1, mcol - 1))
            (vals, rowshift - alen + 1, colshift) in
        (vals, rowshift - 1, colshift - 1))
        (replicate (Z.to_nat alend) 1%float, alen - 1, alend - 1) in
    let result := for_range (length a) (fun i r => (r + num_at vals i)%float) 0%float in
    for_range (length a) (fun i r => (r - num_at vals (length a + i))%float) result.

Definition nums (l : list Z) : list value := map (fun z => VNum (num_of_Z z)) l.

(** Designs (intercept column first) with their outcomes. *)

(** Two identical covariate columns. *)
Definition X_repeated : list (list value) :=
  [nums [1; 1; 1]; nums [1; 2; 2]; nums [1; 3; 3]; nums [1; 4; 4]].

(** The same covariate in columns 1 and 3, another one in between. *)
Definition X_repeated_apart : list (list value) :=
  [nums [1; 5200013; 31; 5200013]; nums [1; 6100027; 42; 6100027];
   nums [1; 5850011; 38; 5850011]; nums [1; 7325059; 51; 7325059];
   nums [1; 4990003; 29; 4990003]; nums [1; 6610007; 45; 6610007]].

(** As many rows as columns. *)
Definition X_square : list (list value) := [nums [1; 1]; nums [1; 2]].
Definition y_square : list value := nums [1; 2].

(** A covariate of large, nearly equal values (a timestamp, say). *)
Definition X_drift : list (list value) :=
  [nums [1; 308000025]; nums [1; 308000026]; nums [1; 308000027]].
Definition y_drift : list value := nums [1; 2; 4].


(** Frames: a store holding the columns of one DataFrame, the frame, and
    the options of an analysis on it. *)

Definition strs (l : list string) : list value := map VStr l.

Definition frame_store (group age outcome : list value) : store :=
  {| arrays := list_to_map [(0%nat, group); (1%nat, age); (2%nat, outcome)];
     objects := {[ 0%nat := list_to_map
                     [("group", 0%nat); ("age", 1%nat); ("outcome", 2%nat)] ]} |}.

Definition frame_of (group_type : string) (rows : nat) : DataFrame :=
  {| _data := 0%nat;
     _types := list_to_map
                 [("group", group_type); ("age", "number"); ("outcome", "number")];
     _length := rows |}.

Definition options : Options :=
  {| opt_dependentVar := "outcome"; opt_covariates := inl "age";
     opt_groupVar := "group" |}.

Definition this_of (frame : DataFrame) : AncovaAnalysis :=
  {| this_df := frame; dependentVar := "outcome"; covariates := ["age"];
     groupVar := "group" |}.

(** The scenario of the specification: two groups of three rows. *)
Definition scenario_store : store :=
  frame_store (strs ["A"; "A"; "A"; "B"; "B"; "B"])
              (nums [20; 22; 21; 30; 32; 31]) (nums [50; 52; 51; 65; 67; 66]).
Definition scenario_frame : DataFrame := frame_of "string" 6.

(** One group only. *)
Definition one_group_store : store :=
  frame_store (strs ["A"; "A"; "A"; "A"])
              (nums [20; 22; 21; 30]) (nums [50; 53; 51; 65]).
Definition one_group_frame : DataFrame := frame_of "string" 4.


End Sample.

(** ** Vocabulary of the statements *)

(** Slot [(j, k)] of a matrix, if there is one. *)
Definition entry (G : list (list float)) (j k : nat) : option float :=
  G !! j ≫= (.!! k).

(** The sum the loops of lines 145-151 accumulate in slot [(j, k)], in
    their order of evaluation. *)
Definition gram_sum (E : Engine) (X : list (list value)) (n j k : nat) : float :=
  for_range n (fun i acc => (acc + xnum E X i j * xnum E X i k)%float) 0%float.

(** Columns [a] and [b] of the design hold the same cell in every row. *)
Definition duplicated_columns (X : list (list value)) (a b : nat) : Prop :=
  a ≠ b ∧ ∀ i, (i < length X)%nat → cell_at X i a = cell_at X i b.

(** Row [j] of a matrix returned by jStat, empty if there is none. *)
Definition num_at_row (G : list (list float)) (j : nat) : list float :=
  default [] (G !! j).

(** The singularity check of line 154 lets the design through. *)
Definition passes_singularity_check (E : Engine) (jStat : JStat)
    (X : list (list value)) : Prop :=
  PrimFloat.ltb (PrimFloat.abs (det jStat (XtX E X))) tolerance = false.

(** Every array and every object of [s] is in [s'], with the content it
    has in [s]. *)
Definition store_preserved (s s' : store) : Prop :=
  (∀ r vals, arrays s !! r = Some vals → arrays s' !! r = Some vals)
  ∧ (∀ r props, objects s !! r = Some props → objects s' !! r = Some props).

(** Started in any store that preserves [s0], the computation [m] ends,
    with a value or an exception, in a store that preserves [s0]; a value
    it returns satisfies [post]. *)
Definition keeps (s0 : store) {A : Type} (m : M A) (post : A → Prop) : Prop :=
  ∀ s, store_preserved s0 s →
       store_preserved s0 (m s).2 ∧ ∀ a, (m s).1 = inr a → post a.

(** The column [level] is encoded into: 1 where the cell is [=== level]. *)
Definition indicator (level : value) (vals : list value) : list value :=
  map (fun val => if strict_eq val level then VNum 1 else VNum 0) vals.

(** The callback of lines 102-107 for one level, writing the dummy column
    into the object [dummyData]. *)
Definition encode_level (E : Engine) (this : AncovaAnalysis) (dummyData : loc)
    : value → nat → unit → M unit := λ level _ _,
  col ← get_column (this_df this) (groupVar this);
  match col with
  | None => throw TypeError
  | Some vals =>
    r ← alloc_array (map (fun val => if strict_eq val level then VNum 1 else VNum 0) vals);
    object_set dummyData (dummyName E this level) r
  end.


(** The column [frame._data[name]] as store [s] has it. *)
Definition column_in (s : store) (frame : DataFrame) (name : string)
    : option (list value) :=
  objects s !! _data frame ≫= λ props, props !! name ≫= (arrays s !!.).

(** Row [i] of the design built from the predictor columns [cols]: the
    intercept 1, then cell [i] of each column, in their order. *)
Definition design_row (cols : list (list value)) (i : nat) : list value :=
  VNum 1 :: map (λ vals, default VUndef (vals !! i)) cols.

(** The matrix after the callback of lines 125-129 has run for the
    predictor columns [cols], the first of them being predictor [j]. *)
Fixpoint fill_columns (n j : nat) (cols : list (list value))
    (X : list (list value)) : list (list value) :=
  match cols with
  | [] => X
  | vals :: cols' =>
    fill_columns n (Datatypes.S j) cols'
      (for_range n (fun i => alter (<[(j + 1)%nat := default VUndef (vals !! i)]>) i) X)
  end.

(** The covariate [covar] is a column of the frame declared numeric. *)
Definition valid_covariate (this : AncovaAnalysis) (s : store) (covar : string) : Prop :=
  is_Some (column_in s (this_df this) covar)
  ∧ _types (this_df this) !! covar = Some "number".

(** The four conditions [_validateInputs] tests, in its order. *)
Definition valid_inputs (this : AncovaAnalysis) (s : store) : Prop :=
  is_Some (column_in s (this_df this) (dependentVar this))
  ∧ _types (this_df this) !! dependentVar this = Some "number"
  ∧ Forall (valid_covariate this s) (covariates this)
  ∧ is_Some (column_in s (this_df this) (groupVar this)).

(** The error thrown for a covariate that fails its test, if it fails. *)
Definition covariate_error (this : AncovaAnalysis) (s : store) (covar : string)
    : option exn :=
  match column_in s (this_df this) covar with
  | None => Some (Error ("Covariate '" ++ covar ++ "' not found in DataFrame"))
  | Some _ =>
    if bool_decide (_types (this_df this) !! covar = Some "number") then None
    else Some (Error ("Covariate '" ++ covar ++ "' must be numeric"))
  end.


(** The computation [m] ends, with a value or an exception, in the store
    it started in. *)
Definition reads_only {A : Type} (m : M A) : Prop := ∀ s, (m s).2 = s.

(** The loop of lines 125-129 as the builder runs it: every predictor
    column copied into the matrix of ones. *)
Definition fill_design (frame : DataFrame) (predictors : list string)
    : M (list (list value)) :=
  forEach (fun pred j =>
      for_rangeM (_length frame) (fun i (X : list (list value)) =>
        col ← get_column frame pred;
        match col with
        | None => throw TypeError
        | Some vals =>
          mret (alter (<[(j + 1)%nat := default VUndef (vals !! i)]>) i X)
        end))
    predictors
    (replicate (_length frame) (replicate (length predictors + 1) (VNum 1))).

(** The sum the loops of lines 160-164 accumulate in slot [j] of [XtY]. *)
Definition cross_sum (E : Engine) (X : list (list value)) (y : list value)
    (n j : nat) : float :=
  for_range n (fun i acc =>
    (acc + xnum E X i j * ToNumber E (default VUndef (y !! i)))%float) 0%float.

(** The object the constructor builds from a frame and the options. *)
Definition this_of_options (frame : DataFrame) (options : Options) : AncovaAnalysis :=
  {| this_df := frame;
     dependentVar := opt_dependentVar options;
     covariates := match opt_covariates options with
                   | inr names => names
                   | inl name => [name]
                   end;
     groupVar := opt_groupVar options |}.

(** The property names a plain object inherits from [Object.prototype]:
    for them [o[name]] is not [undefined] even when [o] has no property
    of that name itself. *)
Definition Object_prototype_names : list string :=
  ["constructor"; "__defineGetter__"; "__defineSetter__"; "hasOwnProperty";
   "__lookupGetter__"; "__lookupSetter__"; "isPrototypeOf";
   "propertyIsEnumerable"; "toString"; "valueOf"; "__proto__"; "toLocaleString"].

(** [name] is not an inherited property name: [frame._data[name]] is a
    column of the frame or [undefined]. *)
Definition own_name (name : string) : Prop := name ∉ Object_prototype_names.

(** * Properties *)

(** ** Loops that update one slot per iteration *)

Lemma for_range_ext {S : Type} (n : nat) (f g : nat -> S -> S) (s : S) :
  (forall i t, f i t = g i t) -> for_range n f s = for_range n g s.
Proof.
  intros Hfg. induction n as [|n IH]; simpl; [done|]. by rewrite IH, Hfg.
Qed.

Section LoopLemmas.
Context {A : Type}.

Lemma for_range_alter_same (h : nat -> A -> A) (q j : nat) (l : list A) :
  for_range q (fun k => alter (h k) j) l = alter (for_range q h) j l.
Proof.
  induction q as [|q IH]; simpl.
  - symmetry. by apply list_alter_id.
  - rewrite IH. apply list_alter_alter_eq.
Qed.

Lemma for_range_alter_lookup (h : nat -> A -> A) (q : nat) (l : list A) (k : nat) :
  for_range q (fun k => alter (h k) k) l !! k
  = if decide (k < q)%nat then h k <$> l !! k else l !! k.
Proof.
  induction q as [|q IH]; simpl.
  - destruct (decide (k < 0)%nat); [lia | done].
  - destruct (decide (k = q)) as [->|Hne].
    + rewrite list_lookup_alter_eq, IH.
      destruct (decide (q < q)%nat), (decide (q < Datatypes.S q)%nat); try lia. done.
    + rewrite list_lookup_alter_ne by done. rewrite IH.
      destruct (decide (k < q)%nat), (decide (k < Datatypes.S q)%nat); try lia; done.
Qed.
End LoopLemmas.

(** ** The Gram matrix *)

Section GramLemmas.
Context (E : Engine).

Lemma gram_step_entry (X : list (list value)) (i p j k : nat) (G : list (list float)) :
  entry
    (for_range p (fun j =>
       for_range p (fun k =>
         alter (alter (fun a => (a + xnum E X i j * xnum E X i k)%float) k) j)) G) j k
  = if decide (j < p ∧ k < p)%nat
    then (fun a => (a + xnum E X i j * xnum E X i k)%float) <$> entry G j k
    else entry G j k.
Proof.
  unfold entry.
  erewrite (for_range_ext p); [|intros j' G'; apply for_range_alter_same].
  rewrite for_range_alter_lookup.
  destruct (decide (j < p)%nat) as [Hj|Hj].
  - destruct (G !! j) as [row|]; simpl.
    + rewrite for_range_alter_lookup.
      destruct (decide (k < p)%nat), (decide (j < p ∧ k < p)%nat);
        try tauto; done.
    + destruct (decide (j < p ∧ k < p)%nat); done.
  - destruct (decide (j < p ∧ k < p)%nat); [tauto | done].
Qed.

Lemma gram_entry (X : list (list value)) (n p j k : nat) :
  entry (gram E X n p) j k
  = if decide (j < p ∧ k < p)%nat then Some (gram_sum E X n j k) else None.
Proof.
  unfold gram, gram_sum. induction n as [|n IH]; simpl.
  - unfold entry. destruct (decide (j < p ∧ k < p)%nat) as [[Hj Hk]|Hjk].
    + rewrite (lookup_replicate_2 p _ j Hj). simpl.
      by rewrite (lookup_replicate_2 p _ k Hk).
    + destruct (replicate p (replicate p 0%float) !! j) as [row|] eqn:Hrow; [|done].
      simpl. apply lookup_replicate in Hrow as [-> Hj].
      apply lookup_replicate_None. lia.
  - rewrite gram_step_entry, IH.
    destruct (decide (j < p ∧ k < p)%nat); done.
Qed.

Lemma gram_sum_duplicated (X : list (list value)) (n a b k : nat) :
  (n ≤ length X)%nat →
  (∀ i, (i < length X)%nat → cell_at X i a = cell_at X i b) →
  gram_sum E X n a k = gram_sum E X n b k.
Proof.
  intros Hn Hdup. unfold gram_sum. induction n as [|n IH]; simpl; [done|].
  rewrite IH by lia. unfold xnum. by rewrite (Hdup n) by lia.
Qed.

(** A design with a repeated column has a Gram matrix with a repeated row;
    the sums are equal as floating-point values, not just approximately. *)
Lemma gram_duplicated_rows (X : list (list value)) (p a b : nat) :
  (a < p)%nat → (b < p)%nat →
  (∀ i, (i < length X)%nat → cell_at X i a = cell_at X i b) →
  is_Some (gram E X (length X) p !! a) ∧
  gram E X (length X) p !! a = gram E X (length X) p !! b.
Proof.
  intros Ha Hb Hdup.
  pose proof (gram_entry X (length X) p a) as Ea.
  pose proof (gram_entry X (length X) p b) as Eb.
  unfold entry in Ea, Eb.
  destruct (gram E X (length X) p !! a) as [ra|] eqn:Hra.
  2:{ specialize (Ea a). simpl in Ea.
      destruct (decide (a < p ∧ a < p)%nat); [done | lia]. }
  destruct (gram E X (length X) p !! b) as [rb|] eqn:Hrb.
  2:{ specialize (Eb b). simpl in Eb.
      destruct (decide (b < p ∧ b < p)%nat); [done | lia]. }
  split; [by eexists|]. f_equal. apply list_eq. intros k.
  specialize (Ea k). specialize (Eb k). simpl in Ea, Eb. rewrite Ea, Eb.
  destruct (decide (a < p ∧ k < p)%nat), (decide (b < p ∧ k < p)%nat);
    try lia; [|done].
  f_equal. by apply gram_sum_duplicated.
Qed.
End GramLemmas.

(** ** The singularity check (C1) *)

Lemma fitModel_singular_iff (E : Engine) (jStat : JStat)
    (X : list (list value)) (y : list value) :
  X ≠ [] →
  _fitModel E X y jStat = inl SingularMatrixError
  ↔ PrimFloat.ltb (PrimFloat.abs (det jStat (XtX E X))) tolerance = true.
Proof.
  intros HX. destruct X as [|row0 rows]; [done|].
  unfold _fitModel, XtX. simpl head. simpl default.
  destruct (PrimFloat.ltb _ tolerance); split; intros H; done.
Qed.

(** Past the check the fitter returns a model. *)
Lemma fitModel_returns (E : Engine) (jStat : JStat)
    (X : list (list value)) (y : list value) :
  X ≠ [] →
  passes_singularity_check E jStat X →
  ∃ m, _fitModel E X y jStat = inr m
       ∧ df m = Z.of_nat (length X) - Z.of_nat (length (default [] (head X)))
       ∧ s2 m = (rss m / num_of_Z (df m))%float
       ∧ XtX_inv m = inv jStat (XtX E X)
       ∧ se m = imap (fun j row => PrimFloat.sqrt (s2 m * num_at row j)) (XtX_inv m).
Proof.
  intros HX Hpass. destruct X as [|row0 rows]; [done|].
  unfold passes_singularity_check, XtX in Hpass. simpl head in Hpass.
  simpl default in Hpass.
  unfold _fitModel. rewrite Hpass. eexists. split; [reflexivity|]. simpl.
  repeat split; reflexivity.
Qed.

(** The check of line 154 in full.  For a design with at least one row,
    the fitter throws the singular-matrix error exactly when the absolute
    value of what [jStat.det] returns for the Gram matrix is below 1e-12.
    A design with two identical columns has a Gram matrix with two
    identical rows (identical as floating-point numbers). *)
Lemma fitModel_check_and_duplicates (E : Engine) (jStat : JStat)
    (X : list (list value)) (y : list value) :
  X ≠ [] →
  (_fitModel E X y jStat = inl SingularMatrixError
   ↔ PrimFloat.ltb (PrimFloat.abs (det jStat (XtX E X))) tolerance = true)
  ∧ (∀ a b : nat,
       (a < length (default [] (head X)))%nat →
       (b < length (default [] (head X)))%nat →
       duplicated_columns X a b →
       is_Some (XtX E X !! a) ∧ XtX E X !! a = XtX E X !! b).
Proof.
  intros HX. split; [by apply fitModel_singular_iff|].
  intros a b Ha Hb [Hab Hdup]. by apply gram_duplicated_rows.
Qed.

(** C1 (the code departs from it). The check that is to refuse singular
    Gram matrices refuses the design [X_repeated], whose two covariate
    columns are the same small numbers, but lets a design with an exactly
    duplicated covariate column of larger values through.  In
    [X_repeated_apart] columns 1 and 3 are the same covariate, with
    values of a few millions, so rows 1 and 3 of the Gram matrix are the
    same floating-point numbers.  The determinant as jStat 1.9.4 computes
    it is nevertheless 2^59 = 576460752303423488 and not 0: the products
    it adds and subtracts are rounded.  Its absolute value is not below
    1e-12, and the fitter returns a model instead of throwing the
    singular-matrix error, whatever [jStat.inv] and the distribution
    functions return and whatever the outcome [y]. *)
Theorem fitModel_accepts_duplicated_column (E : Engine) (y : list value)
    (inverse : list (list float) → list (list float))
    (t_cdf : float → float → float) (F_cdf : float → float → float → float) :
  _fitModel E Sample.X_repeated y
    {| det := Sample.jstat_det; inv := inverse;
       studentt_cdf := t_cdf; centralF_cdf := F_cdf |} = inl SingularMatrixError
  ∧ duplicated_columns Sample.X_repeated_apart 1 3
  ∧ is_Some (XtX E Sample.X_repeated_apart !! 1%nat)
  ∧ XtX E Sample.X_repeated_apart !! 1%nat = XtX E Sample.X_repeated_apart !! 3%nat
  ∧ Sample.jstat_det (XtX E Sample.X_repeated_apart) = 576460752303423488%float
  ∧ PrimFloat.ltb (PrimFloat.abs (Sample.jstat_det (XtX E Sample.X_repeated_apart)))
      tolerance = false
  ∧ ∃ m, _fitModel E Sample.X_repeated_apart y
           {| det := Sample.jstat_det; inv := inverse;
              studentt_cdf := t_cdf; centralF_cdf := F_cdf |} = inr m.
Proof.
  assert (Hdup : duplicated_columns Sample.X_repeated_apart 1 3).
  { split; [lia|]. intros i Hi.
    destruct i as [|[|[|[|[|[|i]]]]]]; reflexivity. }
  assert (Hdet : Sample.jstat_det (XtX E Sample.X_repeated_apart)
                 = 576460752303423488%float) by (vm_compute; reflexivity).
  assert (Hcheck : PrimFloat.ltb
                     (PrimFloat.abs (Sample.jstat_det (XtX E Sample.X_repeated_apart)))
                     tolerance = false) by (rewrite Hdet; vm_compute; reflexivity).
  split.
  { apply fitModel_singular_iff; [discriminate|]. vm_compute. reflexivity. }
  split; [exact Hdup|].
  destruct Hdup as [_ Hcells].
  destruct (gram_duplicated_rows E Sample.X_repeated_apart 4 1 3) as [Hsome Hrows];
    [lia | lia | exact Hcells |].
  split; [exact Hsome|]. split; [exact Hrows|].
  split; [exact Hdet|]. split; [exact Hcheck|].
  destruct (fitModel_returns E
              {| det := Sample.jstat_det; inv := inverse;
                 studentt_cdf := t_cdf; centralF_cdf := F_cdf |}
              Sample.X_repeated_apart y) as (m & Hm & _).
  - discriminate.
  - exact Hcheck.
  - by exists m.
Qed.

(** ** What the fitter returns once the check is passed (C2, C7) *)

(** C2 (as the code has it). The fitter has no degrees-of-freedom test:
    every design with at least one row that passes the singularity check
    yields a fitted model, whose [df] is [n - p] whatever its sign and
    whose error variance is [rss / df]. *)
Theorem fitModel_no_df_check (E : Engine) (jStat : JStat)
    (X : list (list value)) (y : list value) :
  X ≠ [] →
  passes_singularity_check E jStat X →
  ∃ m, _fitModel E X y jStat = inr m
       ∧ df m = Z.of_nat (length X) - Z.of_nat (length (default [] (head X)))
       ∧ s2 m = (rss m / num_of_Z (df m))%float.
Proof.
  intros HX Hpass.
  destruct (fitModel_returns E jStat X y HX Hpass) as (m & Hm & Hdf & Hs2 & _).
  by exists m.
Qed.

Lemma fitModel_no_df_check_witness :
  ∃ m, _fitModel Sample.engine Sample.X_drift Sample.y_drift Sample.jStat = inr m
       ∧ df m = 3 - 2
       ∧ s2 m = (rss m / num_of_Z (df m))%float.
Proof.
  apply (fitModel_no_df_check Sample.engine Sample.jStat Sample.X_drift Sample.y_drift).
  - discriminate.
  - vm_compute. reflexivity.
Defined.

(** C2 fails as stated: two rows, two columns, a Gram matrix of
    determinant 1, so [df = 0]; the fitter returns a model, with NaN as
    error variance. *)
Lemma fitModel_df_zero_returns :
  passes_singularity_check Sample.engine Sample.jStat Sample.X_square
  ∧ Z.of_nat (length Sample.X_square) - 2 ≤ 0
  ∧ ∃ m, _fitModel Sample.engine Sample.X_square Sample.y_square Sample.jStat = inr m
         ∧ df m = 0 ∧ s2 m = nan.
Proof.
  split; [vm_compute; reflexivity|]. split; [simpl; lia|].
  eexists. split; [vm_compute; reflexivity|]. split; reflexivity.
Qed.

(** C7 (as the code has it). The fitter does not look at the diagonal of
    the inverse it gets from [jStat.inv]: past the singularity check it
    returns a model whose standard error [j] is
    [Math.sqrt(s2 * XtX_inv[j][j])], whatever the sign of that entry. *)
Theorem fitModel_no_diagonal_check (E : Engine) (jStat : JStat)
    (X : list (list value)) (y : list value) :
  X ≠ [] →
  passes_singularity_check E jStat X →
  ∃ m, _fitModel E X y jStat = inr m
       ∧ XtX_inv m = inv jStat (XtX E X)
       ∧ se m = imap (fun j row => PrimFloat.sqrt (s2 m * num_at row j)) (XtX_inv m).
Proof.
  intros HX Hpass.
  destruct (fitModel_returns E jStat X y HX Hpass) as (m & Hm & _ & _ & Hinv & Hse).
  by exists m.
Qed.

Lemma fitModel_no_diagonal_check_witness :
  ∃ m, _fitModel Sample.engine Sample.X_square Sample.y_square Sample.jStat = inr m
       ∧ XtX_inv m = inv Sample.jStat (XtX Sample.engine Sample.X_square)
       ∧ se m = imap (fun j row => PrimFloat.sqrt (s2 m * num_at row j)) (XtX_inv m).
Proof.
  apply (fitModel_no_diagonal_check Sample.engine Sample.jStat
           Sample.X_square Sample.y_square).
  - discriminate.
  - vm_compute. reflexivity.
Defined.

(** C7 fails as stated: on [X_drift] rounding makes the computed
    determinant of the Gram matrix -128, both diagonal entries of the
    inverse are negative, and the fitter returns a model whose standard
    errors are NaN. *)
Lemma fitModel_negative_diagonal_returns :
  ∃ m, _fitModel Sample.engine Sample.X_drift Sample.y_drift Sample.jStat = inr m
       ∧ PrimFloat.ltb (num_at (num_at_row (XtX_inv m) 0) 0) 0 = true
       ∧ PrimFloat.ltb (num_at (num_at_row (XtX_inv m) 1) 1) 0 = true
       ∧ se m = [nan; nan].
Proof.
  eexists. split; [vm_compute; reflexivity|]. repeat split; vm_compute; reflexivity.
Qed.

(** ** The comparator (C8) *)

(** C8 (as the code has it). The comparator validates nothing: for every
    [q] and [df_full], also non-positive ones, it returns the F statistic
    and the p-value its formulas give. *)
Theorem partialFTest_never_fails (RSS_reduced RSS_full : float)
    (df_reduced df_full q : Z) (jStat : JStat) :
  ∃ r, _partialFTest RSS_reduced RSS_full df_reduced df_full q jStat = inr r
       ∧ fStatistic r
         = ((RSS_reduced - RSS_full) / num_of_Z q / (RSS_full / num_of_Z df_full))%float.
Proof. eexists. split; reflexivity. Qed.

(** C8 fails as stated: with [q = 0] the comparator returns an infinite
    F statistic; with [df_full = -1] a finite one. *)
Lemma partialFTest_invalid_q_returns :
  (∃ r, _partialFTest 2 1 3 2 0 Sample.jStat = inr r ∧ fStatistic r = infinity)
  ∧ (∃ r, _partialFTest 2 1 3 (-1) 1 Sample.jStat = inr r ∧ fStatistic r = (-1)%float).
Proof. split; eexists; (split; [vm_compute; reflexivity | reflexivity]). Qed.

(** ** The store under the monadic operations *)

Lemma store_preserved_refl (s : store) : store_preserved s s.
Proof. by split. Qed.

Lemma bind_inr {A B : Type} (m : M A) (f : A → M B) (s s' : store) (b : B) :
  (m ≫= f) s = (inr b, s') → ∃ a s1, m s = (inr a, s1) ∧ f a s1 = (inr b, s').
Proof.
  unfold mbind, M_bind. destruct (m s) as [[e|a] s1]; [done|]. eauto.
Qed.

Lemma bind_run {A B : Type} (m : M A) (f : A → M B) (s s1 : store) (a : A) :
  m s = (inr a, s1) → (m ≫= f) s = f a s1.
Proof. unfold mbind, M_bind. by intros ->. Qed.

Section Keeps.
Context (s0 : store).

Lemma keeps_ret {A : Type} (a : A) (post : A → Prop) :
  post a → keeps s0 (mret a) post.
Proof. intros Hp s Hs. split; [done|]. by intros a' [= <-]. Qed.

Lemma keeps_throw {A : Type} (e : exn) (post : A → Prop) :
  keeps s0 (throw e) post.
Proof. intros s Hs. by split. Qed.

Lemma keeps_lift {A : Type} (r : result A) :
  keeps s0 (lift r) (λ _, True).
Proof. intros s Hs. by split. Qed.

Lemma keeps_bind {A B : Type} (m : M A) (f : A → M B)
    (P : A → Prop) (Q : B → Prop) :
  keeps s0 m P → (∀ a, P a → keeps s0 (f a) Q) → keeps s0 (m ≫= f) Q.
Proof.
  intros Hm Hf s Hs. destruct (Hm s Hs) as [Hs1 Hpost].
  unfold mbind, M_bind. destruct (m s) as [[e|a] s1]; simpl in *.
  - by split.
  - apply Hf; [by apply Hpost | done].
Qed.

Lemma keeps_get_store : keeps s0 get_store (λ _, True).
Proof. intros s Hs. by split. Qed.

Lemma keeps_read_object (o : loc) : keeps s0 (read_object o) (λ _, True).
Proof.
  intros s Hs. unfold read_object. destruct (objects s !! o); by split.
Qed.

Lemma keeps_get_column (frame : DataFrame) (name : string) :
  keeps s0 (get_column frame name) (λ _, True).
Proof.
  unfold get_column.
  eapply keeps_bind; [apply keeps_read_object|]. intros props _.
  eapply keeps_bind; [apply keeps_get_store|]. intros s _.
  by apply keeps_ret.
Qed.

Lemma keeps_alloc_array (vals : list value) :
  keeps s0 (alloc_array vals) (λ _, True).
Proof.
  intros s [Ha Ho]. split; [|done]. split; [|done]. simpl.
  intros r vs Hr. rewrite lookup_insert_ne; [by apply Ha|].
  intros <-. apply Ha in Hr.
  pose proof (is_fresh (dom (arrays s))) as Hfresh.
  apply Hfresh, elem_of_dom. by eexists.
Qed.

Lemma keeps_alloc_object (props : gmap string loc) :
  keeps s0 (alloc_object props) (λ o, objects s0 !! o = None).
Proof.
  intros s [Ha Ho].
  assert (Hnew : objects s0 !! fresh (dom (objects s)) = None).
  { destruct (objects s0 !! fresh (dom (objects s))) as [m|] eqn:Hm; [|done].
    apply Ho in Hm. exfalso.
    apply (is_fresh (dom (objects s))), elem_of_dom. by eexists. }
  split.
  - split; [done|]. simpl. intros r m Hr.
    rewrite lookup_insert_ne; [by apply Ho|]. intros <-. congruence.
  - simpl. by intros o [= <-].
Qed.

Lemma keeps_object_set (o : loc) (k : string) (r : loc) :
  objects s0 !! o = None → keeps s0 (object_set o k r) (λ _, True).
Proof.
  intros Hnew s [Ha Ho]. split; [|done]. split; [done|]. simpl.
  intros r' m Hr. rewrite lookup_alter_ne; [by apply Ho|]. intros <-. congruence.
Qed.

Lemma keeps_forEach_from {A S : Type} (body : A → nat → S → M S)
    (l : list A) (j : nat) (t : S) :
  (∀ x i u, keeps s0 (body x i u) (λ _, True)) →
  keeps s0 (forEach_from body j l t) (λ _, True).
Proof.
  intros Hbody. revert j t. induction l as [|x l IH]; intros j t; simpl.
  - by apply keeps_ret.
  - eapply keeps_bind; [apply Hbody|]. intros u _. apply IH.
Qed.

Lemma keeps_for_rangeM {S : Type} (body : nat → S → M S) (n : nat) (t : S) :
  (∀ i u, keeps s0 (body i u) (λ _, True)) →
  keeps s0 (for_rangeM n body t) (λ _, True).
Proof.
  intros Hbody. induction n as [|n IH]; simpl.
  - by apply keeps_ret.
  - eapply keeps_bind; [apply IH|]. intros u _. apply Hbody.
Qed.

Lemma keeps_DataFrame_new (columns : loc) :
  keeps s0 (DataFrame_new columns) (λ _, True).
Proof.
  unfold DataFrame_new.
  eapply keeps_bind; [apply keeps_read_object|]. intros props _.
  eapply keeps_bind; [apply keeps_get_store|]. intros s _.
  by apply keeps_ret.
Qed.

Lemma keeps_encodeDummies (E : Engine) (this : AncovaAnalysis) :
  keeps s0 (_encodeDummies E this) (λ _, True).
Proof.
  unfold _encodeDummies.
  eapply keeps_bind; [apply keeps_get_column|]. intros g _.
  eapply keeps_bind; [apply keeps_read_object|]. intros props _.
  eapply keeps_bind; [apply keeps_alloc_object|]. intros dummyData Hnew.
  eapply keeps_bind.
  { apply keeps_forEach_from. intros level i u.
    eapply keeps_bind; [apply keeps_get_column|]. intros [vals|] _.
    - eapply keeps_bind; [apply keeps_alloc_array|]. intros r _.
      by apply keeps_object_set.
    - apply keeps_throw. }
  intros _ _.
  eapply keeps_bind; [apply keeps_DataFrame_new|]. intros enc _.
  by apply keeps_ret.
Qed.

Lemma keeps_buildDesignMatrix (this : AncovaAnalysis) (frame : DataFrame)
    (predictors : list string) :
  keeps s0 (_buildDesignMatrix this frame predictors) (λ _, True).
Proof.
  unfold _buildDesignMatrix.
  eapply keeps_bind.
  { apply keeps_forEach_from. intros pred j X. apply keeps_for_rangeM.
    intros i X'. eapply keeps_bind; [apply keeps_get_column|].
    intros [vals|] _; [by apply keeps_ret | apply keeps_throw]. }
  intros X _.
  eapply keeps_bind; [apply keeps_get_column|].
  intros [y|] _; [by apply keeps_ret | apply keeps_throw].
Qed.

Lemma keeps_analyze (E : Engine) (this : AncovaAnalysis) (jStat : JStat) :
  keeps s0 (analyze E this jStat) (λ _, True).
Proof.
  unfold analyze.
  eapply keeps_bind; [apply keeps_encodeDummies|]. intros [enc lv] _.
  eapply keeps_bind; [apply keeps_buildDesignMatrix|]. intros reduced _.
  eapply keeps_bind; [apply keeps_lift|]. intros rm _.
  eapply keeps_bind; [apply keeps_buildDesignMatrix|]. intros full _.
  eapply keeps_bind; [apply keeps_lift|]. intros fm _.
  eapply keeps_bind; [apply keeps_lift|]. intros pf _.
  by apply keeps_ret.
Qed.
End Keeps.

(** ** The constructor (C10) *)

(** C10. Given a [data] that is not a DataFrame, the constructor throws
    (a TypeError for [null] and [undefined], [Error("data must be a
    DataFrame instance")] otherwise) and leaves the store as it was; when
    it returns an analysis object, [data] is a DataFrame, the object holds
    that frame and the options, and [_validateInputs] accepted it. *)
Theorem constructor_requires_DataFrame (data : data_arg) (options : Options)
    (s : store) :
  ((∀ frame, data ≠ DataIsFrame frame) →
   ∃ e, constructor data options s = (inl e, s))
  ∧ (∀ this s', constructor data options s = (inr this, s') →
       ∃ frame, data = DataIsFrame frame
                ∧ this_df this = frame
                ∧ dependentVar this = opt_dependentVar options
                ∧ groupVar this = opt_groupVar options
                ∧ _validateInputs this s = (inr tt, s')).
Proof.
  split.
  - intros Hnot. destruct data as [| |frame].
    + by exists TypeError.
    + by eexists.
    + by destruct (Hnot frame).
  - intros this s' Hrun. destruct data as [| |frame]; [done|done|].
    exists frame. split; [done|]. simpl in Hrun.
    apply bind_inr in Hrun as ([] & s1 & Hval & Hret).
    injection Hret as <- <-. done.
Qed.

Lemma constructor_requires_DataFrame_witness :
  (∃ e, constructor DataOther Sample.options Sample.scenario_store
        = (inl e, Sample.scenario_store))
  ∧ ∃ this, constructor (DataIsFrame Sample.scenario_frame) Sample.options
              Sample.scenario_store = (inr this, Sample.scenario_store)
            ∧ _validateInputs this Sample.scenario_store
              = (inr tt, Sample.scenario_store).
Proof.
  split.
  - apply (proj1 (constructor_requires_DataFrame DataOther Sample.options
                    Sample.scenario_store)).
    intros frame. discriminate.
  - eexists. split; [vm_compute; reflexivity|].
    vm_compute. reflexivity.
Defined.

(** ** The partial F-test inside the analysis (C4) *)

Lemma lift_inr {A : Type} (r : result A) (s s' : store) (a : A) :
  lift r s = (inr a, s') → r = inr a ∧ s' = s.
Proof. unfold lift. by intros [= -> ->]. Qed.

Lemma analyze_partialF (E : Engine) (this : AncovaAnalysis) (jStat : JStat)
    (s s' : store) (r : AncovaResult) :
  analyze E this jStat s = (inr r, s') →
  _partialFTest (rss (reducedModel r)) (rss (fullModel r))
                (df (reducedModel r)) (df (fullModel r))
                (Z.of_nat (length (tail (levels r)))) jStat
  = inr (partialF r).
Proof.
  unfold analyze. intros Hrun.
  apply bind_inr in Hrun as ([enc lv] & s1 & _ & Hrun).
  apply bind_inr in Hrun as (reduced & s2 & _ & Hrun).
  apply bind_inr in Hrun as (rm & s3 & _ & Hrun).
  apply bind_inr in Hrun as (full & s4 & _ & Hrun).
  apply bind_inr in Hrun as (fm & s5 & _ & Hrun).
  apply bind_inr in Hrun as (pf & s6 & Hpf & Hrun).
  apply lift_inr in Hpf as [Hpf _].
  injection Hrun as <- <-. simpl. by rewrite length_map in Hpf.
Qed.

(** C4. The comparator returns
    [F = ((RSS_reduced - RSS_full) / q) / (RSS_full / df_full)] and
    [1 - centralF.cdf(F, q, df_full)]; in a result of [analyze] with at
    least one level, the residual sums of squares and [df_full] are those
    of the two fitted models and [q] is the number of levels minus one. *)
Theorem partialFTest_formula (jStat : JStat) :
  (∀ (RSS_reduced RSS_full : float) (df_reduced df_full q : Z),
     let F := ((RSS_reduced - RSS_full) / num_of_Z q
               / (RSS_full / num_of_Z df_full))%float in
     _partialFTest RSS_reduced RSS_full df_reduced df_full q jStat
     = inr {| fStatistic := F;
              pValue := (1 - centralF_cdf jStat F (num_of_Z q) (num_of_Z df_full))%float |})
  ∧ (∀ (E : Engine) (this : AncovaAnalysis) (s s' : store) (r : AncovaResult),
       analyze E this jStat s = (inr r, s') →
       levels r ≠ [] →
       let q := Z.of_nat (length (levels r)) - 1 in
       let df_full := df (fullModel r) in
       let F := ((rss (reducedModel r) - rss (fullModel r)) / num_of_Z q
                 / (rss (fullModel r) / num_of_Z df_full))%float in
       partialF r
       = {| fStatistic := F;
            pValue := (1 - centralF_cdf jStat F (num_of_Z q) (num_of_Z df_full))%float |}).
Proof.
  split; [reflexivity|].
  intros E this s s' r Hrun Hlv q df_full F.
  apply analyze_partialF in Hrun.
  assert (Hq : Z.of_nat (length (tail (levels r))) = q).
  { unfold q. destruct (levels r); [done | simpl; lia]. }
  rewrite Hq in Hrun. unfold _partialFTest in Hrun. by injection Hrun as <-.
Qed.

Lemma partialFTest_formula_witness :
  ∃ r s', analyze Sample.engine (Sample.this_of Sample.scenario_frame) Sample.jStat
            Sample.scenario_store = (inr r, s')
          ∧ length (levels r) = 2%nat
          ∧ partialF r
            = {| fStatistic :=
                   ((rss (reducedModel r) - rss (fullModel r)) / 1
                    / (rss (fullModel r) / num_of_Z (df (fullModel r))))%float;
                 pValue :=
                   (1 - centralF_cdf Sample.jStat
                          ((rss (reducedModel r) - rss (fullModel r)) / 1
                           / (rss (fullModel r) / num_of_Z (df (fullModel r))))
                          1 (num_of_Z (df (fullModel r))))%float |}.
Proof.
  eexists. eexists. split; [vm_compute; reflexivity|]. split; [reflexivity|].
  refine (proj2 (partialFTest_formula Sample.jStat) Sample.engine
            (Sample.this_of Sample.scenario_frame) Sample.scenario_store _ _ _ _).
  - vm_compute. reflexivity.
  - discriminate.
Defined.

(** ** The default sort *)

Section SortLemmas.
Context (E : Engine).




Lemma sort_insert_perm (x : value) (l : list value) :
  sort_insert E x l ≡ₚ x :: l.
Proof.
  induction l as [|h t IH]; simpl; [done|].
  destruct (sort_compare E x h); try done.
  rewrite IH. apply Permutation_swap.
Qed.

Lemma sort_perm (l : list value) : sort E l ≡ₚ l.
Proof.
  induction l as [|x l IH]; simpl; [done|].
  by rewrite sort_insert_perm, IH.
Qed.

Lemma sort_length (l : list value) : length (sort E l) = length l.
Proof. apply Permutation_length, sort_perm. Qed.


End SortLemmas.

(** ** The distinct values of a column *)





(** ** Reading columns *)

Lemma get_column_eq (frame : DataFrame) (name : string) (s : store) :
  get_column frame name s
  = match objects s !! _data frame with
    | Some _ => (inr (column_in s frame name), s)
    | None => (inl TypeError, s)
    end.
Proof.
  unfold get_column, column_in, read_object, get_store, mbind, M_bind, mret, M_ret.
  by destruct (objects s !! _data frame).
Qed.

Lemma get_column_Some (frame : DataFrame) (name : string) (s : store)
    (col : list value) :
  column_in s frame name = Some col →
  get_column frame name s = (inr (Some col), s).
Proof.
  intros Hcol. rewrite get_column_eq. unfold column_in in *.
  destruct (objects s !! _data frame); [by rewrite <- Hcol | done].
Qed.

Lemma column_in_preserved (s s' : store) (frame : DataFrame) (name : string)
    (col : list value) :
  store_preserved s s' →
  column_in s frame name = Some col → column_in s' frame name = Some col.
Proof.
  intros [Ha Ho]. unfold column_in.
  destruct (objects s !! _data frame) as [props|] eqn:Hp; [|done].
  rewrite (Ho _ _ Hp). simpl.
  destruct (props !! name) as [r|]; [|done]. simpl. apply Ha.
Qed.

(** C9. Whether [analyze] returns a result or throws, every array and
    every object of the store it started in is in the final store with
    its content unchanged.  In particular the [_data] object of the input
    DataFrame has the properties it had, no more and no less, and each of
    its columns holds the cells it held; the dummy columns are new arrays
    held by a new object. *)
Theorem analyze_preserves_input (E : Engine) (this : AncovaAnalysis)
    (jStat : JStat) (s : store) :
  let s' := (analyze E this jStat s).2 in
  store_preserved s s'
  ∧ (∀ props, objects s !! _data (this_df this) = Some props →
       objects s' !! _data (this_df this) = Some props)
  ∧ (∀ name col, column_in s (this_df this) name = Some col →
       column_in s' (this_df this) name = Some col).
Proof.
  intros s'.
  assert (Hkept : store_preserved s s')
    by apply (keeps_analyze s E this jStat s), store_preserved_refl.
  split; [done|]. split.
  - intros props. apply Hkept.
  - intros name col. by apply column_in_preserved.
Qed.

(** ** The encoder *)

Section EncoderLoop.
Context (E : Engine) (this : AncovaAnalysis).
Context (s0 : store) (g : list value) (d : loc).
Context (Hg : column_in s0 (this_df this) (groupVar this) = Some g).
Context (Hnew : objects s0 !! d = None).

Lemma encode_step (level : value) (j : nat) (s1 : store) (m1 : gmap string loc) :
  store_preserved s0 s1 →
  objects s1 !! d = Some m1 →
  ∃ s1' r,
    encode_level E this d level j tt s1 = (inr tt, s1')
    ∧ store_preserved s0 s1'
    ∧ (∀ r' vals, arrays s1 !! r' = Some vals → arrays s1' !! r' = Some vals)
    ∧ arrays s1' !! r = Some (indicator level g)
    ∧ objects s1' !! d = Some (<[dummyName E this level := r]> m1).
Proof.
  intros Hs1 Hd. unfold encode_level.
  pose proof (column_in_preserved _ _ _ _ _ Hs1 Hg) as Hg1.
  rewrite (bind_run _ _ s1 s1 (Some g)) by by apply get_column_Some.
  unfold mbind, M_bind, alloc_array, object_set. simpl.
  set (r := fresh (dom (arrays s1))).
  assert (Hr : arrays s1 !! r = None).
  { apply not_elem_of_dom, is_fresh. }
  eexists _, r. split; [reflexivity|]. simpl.
  destruct Hs1 as [Ha Ho]. repeat split.
  - intros r' vals Hr'. simpl. rewrite lookup_insert_ne; [by apply Ha|].
    intros <-. apply Ha in Hr'. congruence.
  - intros r' props Hr'. simpl. rewrite lookup_alter_ne; [by apply Ho|].
    intros <-. congruence.
  - intros r' vals Hr'. rewrite lookup_insert_ne; [done|]. intros <-. congruence.
  - apply lookup_insert_eq.
  - by rewrite lookup_alter_eq, Hd.
Qed.

Lemma encode_loop (L : list value) (j : nat) (s1 : store) (m1 : gmap string loc) :
  store_preserved s0 s1 →
  objects s1 !! d = Some m1 →
  ∃ s2 m2,
    forEach_from (encode_level E this d) j L tt s1 = (inr tt, s2)
    ∧ store_preserved s0 s2
    ∧ (∀ r vals, arrays s1 !! r = Some vals → arrays s2 !! r = Some vals)
    ∧ objects s2 !! d = Some m2
    ∧ (∀ name, name ∉ map (dummyName E this) L → m2 !! name = m1 !! name)
    ∧ (∀ L1 level L2, L = (L1 ++ level :: L2)%list →
         dummyName E this level ∉ map (dummyName E this) L2 →
         ∃ r, m2 !! dummyName E this level = Some r
              ∧ arrays s2 !! r = Some (indicator level g)).
Proof.
  revert j s1 m1. induction L as [|x L IH]; intros j s1 m1 Hs1 Hd.
  - exists s1, m1. simpl.
    split; [done|]. split; [done|]. split; [done|]. split; [done|].
    split; [done|]. intros L1 level L2 HL. by destruct L1.
  - destruct (encode_step x j s1 m1 Hs1 Hd)
      as (s1' & r & Hrun & Hs1' & Harr & Hr & Hd').
    destruct (IH (Datatypes.S j) s1' _ Hs1' Hd')
      as (s2 & m2 & Hrun2 & Hs2 & Harr2 & Hd2 & Hother & Hlevels).
    exists s2, m2. simpl. rewrite (bind_run _ _ _ _ _ Hrun).
    split; [done|]. split; [done|]. split; [by eauto|]. split; [done|]. split.
    + intros name Hname. simpl in Hname.
      apply not_elem_of_cons in Hname as [Hne Hname].
      rewrite Hother by done. by apply lookup_insert_ne.
    + intros L1 level L2 HL Hlast. destruct L1 as [|x' L1].
      * injection HL as <- <-. exists r. split; [|by apply Harr2].
        rewrite Hother by done. apply lookup_insert_eq.
      * injection HL as <- ->. by eapply Hlevels.
Qed.
End EncoderLoop.

Lemma DataFrame_new_run (columns : loc) (s : store) (props : gmap string loc) :
  objects s !! columns = Some props →
  ∃ frame, DataFrame_new columns s = (inr frame, s) ∧ _data frame = columns.
Proof.
  intros Hprops. unfold DataFrame_new.
  rewrite (bind_run _ _ s s props) by (unfold read_object; by rewrite Hprops).
  rewrite (bind_run _ _ s s s) by reflexivity.
  eexists. split; reflexivity.
Qed.

(** What a successful run of the encoder gives, for any group column. *)
Lemma encodeDummies_run (E : Engine) (this : AncovaAnalysis) (s : store)
    (props : gmap string loc) (g : list value) :
  objects s !! _data (this_df this) = Some props →
  column_in s (this_df this) (groupVar this) = Some g →
  ∃ enc s' cols,
    _encodeDummies E this s = (inr (enc, sort E (spread_set g)), s')
    ∧ store_preserved s s'
    ∧ objects s !! _data enc = None
    ∧ objects s' !! _data enc = Some cols
    ∧ (∀ name, name ∉ map (dummyName E this) (tail (sort E (spread_set g))) →
         cols !! name = props !! name)
    ∧ (∀ L1 level L2, tail (sort E (spread_set g)) = (L1 ++ level :: L2)%list →
         dummyName E this level ∉ map (dummyName E this) L2 →
         column_in s' enc (dummyName E this level) = Some (indicator level g)).
Proof.
  intros Hprops Hg. unfold _encodeDummies.
  rewrite (bind_run _ _ s s (Some g)) by by apply get_column_Some.
  simpl default.
  rewrite (bind_run _ _ s s props) by (unfold read_object; by rewrite Hprops).
  set (d := fresh (dom (objects s))).
  assert (Hnew : objects s !! d = None) by apply not_elem_of_dom, is_fresh.
  set (s1 := {| arrays := arrays s; objects := <[d := props]> (objects s) |}).
  rewrite (bind_run _ _ s s1 d) by reflexivity.
  assert (Hs1 : store_preserved s s1).
  { split; [done|]. intros r m Hr. simpl. rewrite lookup_insert_ne; [done|].
    intros <-. congruence. }
  assert (Hd : objects s1 !! d = Some props) by apply lookup_insert_eq.
  destruct (encode_loop E this s g d Hg Hnew (tail (sort E (spread_set g)))
              0%nat s1 props Hs1 Hd)
    as (s2 & m2 & Hrun & Hs2 & Harr & Hd2 & Hother & Hlevels).
  unfold forEach. erewrite bind_run by exact Hrun.
  destruct (DataFrame_new_run d s2 m2 Hd2) as (enc & Henc & Hdata).
  rewrite (bind_run _ _ s2 s2 enc) by exact Henc.
  exists enc, s2, m2. split; [reflexivity|]. rewrite Hdata.
  split; [done|]. split; [done|]. split; [done|]. split; [done|].
  intros L1 level L2 HL Hlast.
  destruct (Hlevels L1 level L2 HL Hlast) as (r & Hr & Hind).
  unfold column_in. rewrite Hdata, Hd2. simpl. rewrite Hr. done.
Qed.

Lemma column_in_object (s : store) (frame : DataFrame) (name : string)
    (col : list value) :
  column_in s frame name = Some col →
  ∃ props, objects s !! _data frame = Some props.
Proof.
  unfold column_in. destruct (objects s !! _data frame) as [props|]; [|done].
  by exists props.
Qed.






(** ** Validation and the number of group levels (C3) *)

Lemma validate_covariates (this : AncovaAnalysis) (s : store)
    (names : list string) (j : nat) :
  Forall (λ covar, is_Some (column_in s (this_df this) covar)
                   ∧ _types (this_df this) !! covar = Some "number") names →
  forEach_from (fun covar (_ : nat) (_ : unit) =>
      c ← get_column (this_df this) covar;
      if c is None then
        throw (Error ("Covariate '" ++ covar ++ "' not found in DataFrame"))
      else if negb (bool_decide (_types (this_df this) !! covar = Some "number")) then
        throw (Error ("Covariate '" ++ covar ++ "' must be numeric"))
      else mret tt) j names tt s
  = (inr tt, s).
Proof.
  intros Hall. revert j. induction Hall as [|covar names [[col Hcol] Hty] _ IH];
    intros j; simpl; [done|].
  erewrite bind_run.
  2:{ rewrite (bind_run _ _ s s (Some col)) by by apply get_column_Some.
      rewrite bool_decide_eq_true_2 by done. reflexivity. }
  apply IH.
Qed.

Lemma validateInputs_accepts (this : AncovaAnalysis) (s : store) :
  is_Some (column_in s (this_df this) (dependentVar this)) →
  _types (this_df this) !! dependentVar this = Some "number" →
  Forall (λ covar, is_Some (column_in s (this_df this) covar)
                   ∧ _types (this_df this) !! covar = Some "number")
         (covariates this) →
  is_Some (column_in s (this_df this) (groupVar this)) →
  _validateInputs this s = (inr tt, s).
Proof.
  intros [dep Hdep] Hty Hcov [g Hg]. unfold _validateInputs.
  rewrite (bind_run _ _ s s (Some dep)) by by apply get_column_Some.
  rewrite bool_decide_eq_true_2 by done.
  change (negb true) with false. cbv beta iota.
  unfold forEach. erewrite bind_run by by apply validate_covariates.
  rewrite (bind_run _ _ s s (Some g)) by by apply get_column_Some.
  reflexivity.
Qed.

(** C3 (as the code has it). Validation looks at the group column only to
    see that it is there: with the dependent variable and the covariates
    present and numeric, [_validateInputs] succeeds for every group
    column, whatever the number of its distinct values.  The encoder then
    throws nothing and returns as levels the sorted distinct values of
    that column, as many as there are; when they are fewer than two there
    is no non-reference level, hence no dummy-column name. *)
Theorem validateInputs_accepts_single_level (E : Engine) (this : AncovaAnalysis)
    (s : store) (g : list value) :
  is_Some (column_in s (this_df this) (dependentVar this)) →
  _types (this_df this) !! dependentVar this = Some "number" →
  Forall (λ covar, is_Some (column_in s (this_df this) covar)
                   ∧ _types (this_df this) !! covar = Some "number")
         (covariates this) →
  column_in s (this_df this) (groupVar this) = Some g →
  _validateInputs this s = (inr tt, s)
  ∧ (∃ enc s', _encodeDummies E this s = (inr (enc, sort E (spread_set g)), s'))
  ∧ length (sort E (spread_set g)) = length (spread_set g)
  ∧ ((length (spread_set g) < 2)%nat →
     tail (sort E (spread_set g)) = []
     ∧ map (dummyName E this) (tail (sort E (spread_set g))) = []).
Proof.
  intros Hdep Hty Hcov Hg. split.
  { apply validateInputs_accepts; try done; by eexists. }
  split.
  { destruct (column_in_object _ _ _ _ Hg) as [props Hprops].
    destruct (encodeDummies_run E this s props g Hprops Hg)
      as (enc & s' & cols & Hrun & _).
    by exists enc, s'. }
  split; [apply sort_length|].
  intros Hfew. rewrite <- (sort_length E) in Hfew.
  assert (Htail : tail (sort E (spread_set g)) = []).
  { destruct (sort E (spread_set g)) as [|l0 [|l1 lv]]; simpl in *; [done|done|lia]. }
  by rewrite Htail.
Qed.

Lemma validateInputs_accepts_single_level_witness :
  _validateInputs (Sample.this_of Sample.one_group_frame) Sample.one_group_store
  = (inr tt, Sample.one_group_store)
  ∧ (∃ enc s',
       _encodeDummies Sample.engine (Sample.this_of Sample.one_group_frame)
         Sample.one_group_store = (inr (enc, [VStr "A"]), s'))
  ∧ map (dummyName Sample.engine (Sample.this_of Sample.one_group_frame))
      (tail (sort Sample.engine (spread_set (Sample.strs ["A"; "A"; "A"; "A"])))) = [].
Proof.
  destruct (validateInputs_accepts_single_level Sample.engine
              (Sample.this_of Sample.one_group_frame) Sample.one_group_store
              (Sample.strs ["A"; "A"; "A"; "A"]))
    as (Hvalid & Hencode & _ & Hfew).
  - vm_compute. by eexists.
  - vm_compute. reflexivity.
  - repeat constructor. vm_compute. by eexists.
  - vm_compute. reflexivity.
  - split; [exact Hvalid|]. split; [exact Hencode|].
    apply Hfew. vm_compute. lia.
Defined.

(** C3 fails as stated: on a frame whose group column holds the single
    value "A" the constructor succeeds and [analyze] returns a result,
    with one level and NaN as F statistic. *)
Lemma analyze_single_level_returns :
  ∃ this r s',
    constructor (DataIsFrame Sample.one_group_frame) Sample.options
      Sample.one_group_store = (inr this, Sample.one_group_store)
    ∧ analyze Sample.engine this Sample.jStat Sample.one_group_store = (inr r, s')
    ∧ levels r = [VStr "A"]
    ∧ fStatistic (partialF r) = nan.
Proof.
  eexists. eexists. eexists. split; [vm_compute; reflexivity|].
  split; [vm_compute; reflexivity|]. split; reflexivity.
Qed.

(** ** The design matrix (C6) *)

Lemma fill_column_run (frame : DataFrame) (pred : string) (vals : list value)
    (s : store) (n j : nat) (X : list (list value)) :
  column_in s frame pred = Some vals →
  for_rangeM n (fun i (X : list (list value)) =>
      col ← get_column frame pred;
      match col with
      | None => throw TypeError
      | Some vals =>
        mret (alter (<[(j + 1)%nat := default VUndef (vals !! i)]>) i X)
      end) X s
  = (inr (for_range n
            (fun i => alter (<[(j + 1)%nat := default VUndef (vals !! i)]>) i) X), s).
Proof.
  intros Hcol. induction n as [|n IH]; simpl; [done|].
  erewrite bind_run by exact IH.
  by rewrite (bind_run _ _ s s (Some vals)) by by apply get_column_Some.
Qed.

Lemma fill_columns_run (frame : DataFrame) (s : store) (n : nat)
    (predictors : list string) (cols : list (list value)) (j : nat)
    (X : list (list value)) :
  Forall2 (λ pred vals, column_in s frame pred = Some vals) predictors cols →
  forEach_from (fun pred j =>
      for_rangeM n (fun i (X : list (list value)) =>
        col ← get_column frame pred;
        match col with
        | None => throw TypeError
        | Some vals =>
          mret (alter (<[(j + 1)%nat := default VUndef (vals !! i)]>) i X)
        end)) j predictors X s
  = (inr (fill_columns n j cols X), s).
Proof.
  intros Hall. revert j X.
  induction Hall as [|pred vals predictors cols Hcol _ IH]; intros j X; simpl; [done|].
  erewrite bind_run by by apply fill_column_run. apply IH.
Qed.

Lemma for_range_alter_rows {A : Type} (h : nat → A → A) (f : nat → A) (n : nat) :
  for_range n (fun i => alter (h i) i) (map f (seq 0 n))
  = map (λ i, h i (f i)) (seq 0 n).
Proof.
  apply list_eq. intros k. rewrite for_range_alter_lookup.
  rewrite !list_lookup_fmap.
  destruct (decide (k < n)%nat) as [Hk|Hk].
  - by rewrite (lookup_seq_lt 0 n k Hk).
  - by rewrite (lookup_seq_ge 0 n k) by lia.
Qed.

Lemma replicate_rows {A : Type} (n : nat) (row : A) :
  replicate n row = map (λ _, row) (seq 0 n).
Proof.
  apply list_eq. intros k. rewrite list_lookup_fmap.
  destruct (decide (k < n)%nat) as [Hk|Hk].
  - rewrite (lookup_seq_lt 0 n k Hk). by apply lookup_replicate_2.
  - rewrite (lookup_seq_ge 0 n k) by lia. apply lookup_replicate_None. lia.
Qed.

Lemma fill_columns_rows (n : nat) (cols done : list (list value)) :
  fill_columns n (length done) cols
    (map (λ i, (design_row done i ++ replicate (length cols) (VNum 1))%list) (seq 0 n))
  = map (design_row (done ++ cols)%list) (seq 0 n).
Proof.
  revert done. induction cols as [|vals cols IH]; intros done; simpl.
  - rewrite app_nil_r. apply map_ext. intros i.
    unfold design_row. simpl. by rewrite app_nil_r.
  - rewrite for_range_alter_rows.
    replace (done ++ vals :: cols)%list with ((done ++ [vals]) ++ cols)%list
      by by rewrite <- app_assoc.
    rewrite <- (IH (done ++ [vals])%list). rewrite length_app. simpl length.
    rewrite (Nat.add_1_r (length done)). f_equal.
    apply map_ext. intros i. unfold design_row.
    simpl. f_equal.
    rewrite insert_app_r_alt by (rewrite length_map; lia).
    rewrite length_map, Nat.sub_diag, map_app. simpl. by rewrite <- app_assoc.
Qed.

(** C6. For a frame of [n] rows, predictor names that each name a column
    of length [n], and an outcome column of length [n], the builder
    returns the outcome column as [y] and as [X] the [n] rows, in source
    order, each made of the intercept 1 followed by the row's cell of
    every predictor column in the order of the names: an [n] by [k + 1]
    matrix.  The store is left as it was. *)
Theorem buildDesignMatrix_spec (this : AncovaAnalysis) (frame : DataFrame)
    (predictors : list string) (s : store) (cols : list (list value))
    (y : list value) :
  Forall2 (λ pred vals, column_in s frame pred = Some vals
                        ∧ length vals = _length frame) predictors cols →
  column_in s frame (dependentVar this) = Some y →
  length y = _length frame →
  ∃ X,
    _buildDesignMatrix this frame predictors s = (inr (X, y), s)
    ∧ X = map (design_row cols) (seq 0 (_length frame))
    ∧ length X = _length frame
    ∧ ∀ i row, X !! i = Some row →
        length row = (length predictors + 1)%nat
        ∧ row !! 0%nat = Some (VNum 1)
        ∧ ∀ j vals, cols !! j = Some vals →
            is_Some (vals !! i) ∧ row !! (j + 1)%nat = vals !! i.
Proof.
  intros Hcols Hy Hlen.
  exists (map (design_row cols) (seq 0 (_length frame))). split.
  - unfold _buildDesignMatrix, forEach.
    erewrite bind_run.
    2:{ apply (fill_columns_run frame s _ predictors cols).
        eapply Forall2_impl; [exact Hcols|]. by intros pred vals [? _]. }
    rewrite (bind_run _ _ s s (Some y)) by by apply get_column_Some.
    rewrite replicate_rows.
    rewrite (Forall2_length _ _ _ Hcols), Nat.add_1_r.
    pose proof (fill_columns_rows (_length frame) cols []) as Hrows.
    simpl in Hrows. simpl replicate. rewrite Hrows. reflexivity.
  - split; [done|]. split; [by rewrite length_map, length_seq|].
    intros i row Hrow. rewrite list_lookup_fmap in Hrow.
    destruct (seq 0 (_length frame) !! i) as [i'|] eqn:Hi; [|done].
    apply lookup_seq in Hi as [-> Hi]. simpl in Hrow. injection Hrow as <-.
    unfold design_row. simpl. rewrite length_map.
    rewrite (Forall2_length _ _ _ Hcols).
    split; [lia|]. split; [done|]. intros j vals Hj.
    rewrite Nat.add_1_r. simpl. rewrite list_lookup_fmap, Hj. simpl.
    destruct (Forall2_lookup_r _ _ _ _ _ Hcols Hj) as (pred & _ & _ & Hvals).
    destruct (lookup_lt_is_Some_2 vals i) as [v Hv]; [lia|].
    rewrite Hv. split; [by eexists | done].
Qed.

Lemma buildDesignMatrix_spec_witness :
  ∃ X,
    _buildDesignMatrix (Sample.this_of Sample.scenario_frame) Sample.scenario_frame
      ["age"] Sample.scenario_store
    = (inr (X, Sample.nums [50; 52; 51; 65; 67; 66]), Sample.scenario_store)
    ∧ X = [Sample.nums [1; 20]; Sample.nums [1; 22]; Sample.nums [1; 21];
           Sample.nums [1; 30]; Sample.nums [1; 32]; Sample.nums [1; 31]].
Proof.
  destruct (buildDesignMatrix_spec (Sample.this_of Sample.scenario_frame)
              Sample.scenario_frame ["age"] Sample.scenario_store
              [Sample.nums [20; 22; 21; 30; 32; 31]]
              (Sample.nums [50; 52; 51; 65; 67; 66]))
    as (X & Hrun & HX & _).
  - repeat constructor.
  - vm_compute. reflexivity.
  - reflexivity.
  - exists X. split; [exact Hrun|]. rewrite HX. reflexivity.
Defined.

(** * Further properties of the module *)

(** ** Validation: what is accepted and which error is thrown *)

(** A name is checked against the inherited ones by comparing strings. *)
Lemma own_name_check (name : string) :
  forallb (λ inherited, negb (String.eqb name inherited)) Object_prototype_names = true →
  own_name name.
Proof.
  intros Hall Hin. rewrite forallb_forall in Hall.
  apply list_elem_of_In in Hin. specialize (Hall _ Hin).
  by rewrite String.eqb_refl in Hall.
Qed.

Lemma get_column_object (frame : DataFrame) (name : string) (s : store)
    (props : gmap string loc) :
  objects s !! _data frame = Some props →
  get_column frame name s = (inr (column_in s frame name), s).
Proof. intros Hprops. by rewrite get_column_eq, Hprops. Qed.

Lemma covariate_error_None (this : AncovaAnalysis) (s : store) (covar : string) :
  covariate_error this s covar = None ↔ valid_covariate this s covar.
Proof.
  unfold covariate_error, valid_covariate.
  destruct (column_in s (this_df this) covar) as [col|].
  - destruct (decide (_types (this_df this) !! covar = Some "number")) as [Hty|Hty].
    + rewrite bool_decide_eq_true_2 by done. split; [|done].
      intros _. split; [by eexists | done].
    + rewrite bool_decide_eq_false_2 by done. split; [done|]. by intros [_ ?].
  - split; [done|]. intros [[? ?] _]. done.
Qed.

Lemma bind_throw {A B : Type} (m : M A) (f : A → M B) (s s1 : store) (e : exn) :
  m s = (inl e, s1) → (m ≫= f) s = (inl e, s1).
Proof. unfold mbind, M_bind. by intros ->. Qed.

Lemma validate_covariate_step (this : AncovaAnalysis) (s : store)
    (props : gmap string loc) (covar : string) :
  objects s !! _data (this_df this) = Some props →
  (c ← get_column (this_df this) covar;
   if c is None then
     throw (Error ("Covariate '" ++ covar ++ "' not found in DataFrame"))
   else if negb (bool_decide (_types (this_df this) !! covar = Some "number")) then
     throw (Error ("Covariate '" ++ covar ++ "' must be numeric"))
   else mret tt) s
  = match covariate_error this s covar with
    | Some e => (inl e, s)
    | None => (inr tt, s)
    end.
Proof.
  intros Hprops.
  rewrite (bind_run _ _ s s (column_in s (this_df this) covar))
    by by eapply get_column_object.
  unfold covariate_error.
  destruct (column_in s (this_df this) covar) as [col|]; [|done].
  by destruct (bool_decide (_types (this_df this) !! covar = Some "number")).
Qed.

(** The loop over the covariates stops at the first one that fails. *)
Lemma validate_covariates_cases (this : AncovaAnalysis) (s : store)
    (props : gmap string loc) (names : list string) (j : nat) :
  objects s !! _data (this_df this) = Some props →
  forEach_from (fun covar (_ : nat) (_ : unit) =>
      c ← get_column (this_df this) covar;
      if c is None then
        throw (Error ("Covariate '" ++ covar ++ "' not found in DataFrame"))
      else if negb (bool_decide (_types (this_df this) !! covar = Some "number")) then
        throw (Error ("Covariate '" ++ covar ++ "' must be numeric"))
      else mret tt) j names tt s
  = match list_find (λ covar, is_Some (covariate_error this s covar)) names with
    | Some (_, covar) => (inl (default TypeError (covariate_error this s covar)), s)
    | None => (inr tt, s)
    end.
Proof.
  intros Hprops. revert j. induction names as [|covar names IH]; intros j; [done|].
  cbn [forEach_from list_find].
  pose proof (validate_covariate_step this s props covar Hprops) as Hstep.
  destruct (covariate_error this s covar) as [e|] eqn:He.
  - rewrite decide_True by by eexists. simpl. rewrite He. simpl.
    by apply bind_throw.
  - rewrite decide_False by by intros [? ?].
    erewrite bind_run by exact Hstep. rewrite IH.
    by destruct (list_find _ names) as [[i c]|].
Qed.

Lemma validateInputs_result (this : AncovaAnalysis) (s : store)
    (props : gmap string loc) :
  objects s !! _data (this_df this) = Some props →
  _validateInputs this s
  = match column_in s (this_df this) (dependentVar this) with
    | None =>
      (inl (Error ("Dependent variable '" ++ dependentVar this
                   ++ "' not found in DataFrame")), s)
    | Some _ =>
      if bool_decide (_types (this_df this) !! dependentVar this = Some "number") then
        match list_find (λ covar, is_Some (covariate_error this s covar))
                (covariates this) with
        | Some (_, covar) => (inl (default TypeError (covariate_error this s covar)), s)
        | None =>
          match column_in s (this_df this) (groupVar this) with
          | None =>
            (inl (Error ("Group variable '" ++ groupVar this
                         ++ "' not found in DataFrame")), s)
          | Some _ => (inr tt, s)
          end
        end
      else
        (inl (Error ("Dependent variable '" ++ dependentVar this
                     ++ "' must be numeric")), s)
    end.
Proof.
  intros Hprops. unfold _validateInputs.
  rewrite (bind_run _ _ s s (column_in s (this_df this) (dependentVar this)))
    by by eapply get_column_object.
  destruct (column_in s (this_df this) (dependentVar this)) as [dep|]; [|done].
  destruct (bool_decide (_types (this_df this) !! dependentVar this = Some "number"));
    [|done].
  change (negb true) with false. cbv beta iota. unfold forEach.
  pose proof (validate_covariates_cases this s props (covariates this) 0%nat Hprops)
    as Hloop.
  destruct (list_find _ (covariates this)) as [[i covar]|].
  - by apply bind_throw.
  - erewrite bind_run by exact Hloop.
    rewrite (bind_run _ _ s s (column_in s (this_df this) (groupVar this)))
      by by eapply get_column_object.
    by destruct (column_in s (this_df this) (groupVar this)).
Qed.

Lemma validateInputs_inr (this : AncovaAnalysis) (s s' : store)
    (props : gmap string loc) :
  objects s !! _data (this_df this) = Some props →
  _validateInputs this s = (inr tt, s') → valid_inputs this s.
Proof.
  intros Hprops. rewrite (validateInputs_result this s props Hprops).
  unfold valid_inputs.
  destruct (column_in s (this_df this) (dependentVar this)) as [dep|]; [|done].
  destruct (decide (_types (this_df this) !! dependentVar this = Some "number"))
    as [Hty|Hty].
  2:{ by rewrite bool_decide_eq_false_2 by done. }
  rewrite bool_decide_eq_true_2 by done.
  destruct (list_find _ (covariates this)) as [[i covar]|] eqn:Hfind; [done|].
  destruct (column_in s (this_df this) (groupVar this)) as [g|]; [|done].
  intros _. split; [by eexists|]. split; [done|]. split; [|by eexists].
  apply list_find_None in Hfind. eapply Forall_impl; [exact Hfind|].
  intros covar Hcovar. apply covariate_error_None.
  destruct (covariate_error this s covar) eqn:He; [|done].
  exfalso. apply Hcovar. rewrite He. by eexists.
Qed.

(** X1. On a frame whose [_data] object exists, and for a group variable
    that is not an inherited property name (for such a name the test of
    line 87 passes without a column), [_validateInputs] returns exactly
    when the dependent variable is a numeric column, every covariate is a
    numeric column and the group variable is a column; the type of the
    group column is not looked at. *)
Theorem validateInputs_accepts_iff (this : AncovaAnalysis) (s : store)
    (props : gmap string loc) :
  objects s !! _data (this_df this) = Some props →
  own_name (groupVar this) →
  _validateInputs this s = (inr tt, s) ↔ valid_inputs this s.
Proof.
  intros Hprops _. split.
  - by apply validateInputs_inr with props.
  - intros (Hdep & Hty & Hcov & Hg). by apply validateInputs_accepts.
Qed.

Lemma validateInputs_accepts_iff_witness :
  _validateInputs (Sample.this_of Sample.scenario_frame) Sample.scenario_store
  = (inr tt, Sample.scenario_store)
  ↔ valid_inputs (Sample.this_of Sample.scenario_frame) Sample.scenario_store.
Proof.
  eapply (validateInputs_accepts_iff (Sample.this_of Sample.scenario_frame)
            Sample.scenario_store).
  - vm_compute. reflexivity.
  - apply own_name_check. reflexivity.
Defined.

(** X2. [_validateInputs] reports the first test that fails, in the
    order dependent variable, covariates as listed, group variable: a
    missing dependent variable gives "Dependent variable '...' not found
    in DataFrame", a non-numeric one "... must be numeric"; with a valid
    dependent variable, the first covariate that is missing or not
    numeric gives its own error whatever follows it; with valid
    covariates, a missing group variable gives "Group variable '...' not
    found in DataFrame".  The store is as it was.  A name counts as
    missing here when it names no column and is not an inherited property
    name (an inherited name passes the not-found test of lines 65, 78
    and 87). *)
Theorem validateInputs_first_failure (this : AncovaAnalysis) (s : store)
    (props : gmap string loc) :
  objects s !! _data (this_df this) = Some props →
  (column_in s (this_df this) (dependentVar this) = None →
   own_name (dependentVar this) →
   _validateInputs this s
   = (inl (Error ("Dependent variable '" ++ dependentVar this
                  ++ "' not found in DataFrame")), s))
  ∧ (is_Some (column_in s (this_df this) (dependentVar this)) →
     _types (this_df this) !! dependentVar this ≠ Some "number" →
     _validateInputs this s
     = (inl (Error ("Dependent variable '" ++ dependentVar this
                    ++ "' must be numeric")), s))
  ∧ (∀ good covar rest e,
       valid_covariate this s (dependentVar this) →
       covariates this = (good ++ covar :: rest)%list →
       Forall (valid_covariate this s) good →
       (column_in s (this_df this) covar = None → own_name covar) →
       covariate_error this s covar = Some e →
       _validateInputs this s = (inl e, s))
  ∧ (valid_covariate this s (dependentVar this) →
     Forall (valid_covariate this s) (covariates this) →
     column_in s (this_df this) (groupVar this) = None →
     own_name (groupVar this) →
     _validateInputs this s
     = (inl (Error ("Group variable '" ++ groupVar this
                    ++ "' not found in DataFrame")), s)).
Proof.
  intros Hprops. rewrite (validateInputs_result this s props Hprops).
  split; [by intros -> _|]. split.
  { intros [dep ->] Hty. by rewrite bool_decide_eq_false_2 by done. }
  split.
  - intros good covar rest e [[dep Hdep] Hty] Hcovs Hgood _ He.
    rewrite Hdep, bool_decide_eq_true_2 by done.
    assert (Hfind : list_find (λ c, is_Some (covariate_error this s c))
                      (covariates this) = Some (length good, covar)).
    { apply list_find_Some. rewrite Hcovs. split.
      - by rewrite list_lookup_middle.
      - split; [rewrite He; by eexists|]. intros j c Hj Hlt.
        rewrite lookup_app_l in Hj by done.
        rewrite Forall_lookup in Hgood. apply (Hgood j c) in Hj.
        apply covariate_error_None in Hj. rewrite Hj. by intros [? ?]. }
    rewrite Hfind, He. done.
  - intros [[dep Hdep] Hty] Hcov Hg _.
    rewrite Hdep, bool_decide_eq_true_2 by done.
    assert (Hfind : list_find (λ c, is_Some (covariate_error this s c))
                      (covariates this) = None).
    { apply list_find_None. eapply Forall_impl; [exact Hcov|].
      intros c Hc. apply covariate_error_None in Hc. rewrite Hc. by intros [? ?]. }
    by rewrite Hfind, Hg.
Qed.

Lemma validateInputs_first_failure_witness :
  _validateInputs
    {| this_df := Sample.scenario_frame; dependentVar := "outcome";
       covariates := ["age"; "group"; "weight"]; groupVar := "group" |}
    Sample.scenario_store
  = (inl (Error "Covariate 'group' must be numeric"), Sample.scenario_store).
Proof.
  set (this := {| this_df := Sample.scenario_frame; dependentVar := "outcome";
                  covariates := ["age"; "group"; "weight"]; groupVar := "group" |}).
  assert (Hprops : objects Sample.scenario_store !! _data (this_df this)
                   = Some (list_to_map [("group", 0%nat); ("age", 1%nat);
                                        ("outcome", 2%nat)]))
    by (vm_compute; reflexivity).
  destruct (validateInputs_first_failure this Sample.scenario_store _ Hprops)
    as (_ & _ & Hcov & _).
  apply (Hcov ["age"] "group" ["weight"]).
  - split; [vm_compute; by eexists | vm_compute; reflexivity].
  - reflexivity.
  - repeat constructor; vm_compute; by eexists.
  - intros _. apply own_name_check. reflexivity.
  - vm_compute. reflexivity.
Defined.

(** ** Computations that only read *)

Lemma reads_only_ret {A : Type} (a : A) : reads_only (mret a).
Proof. by intros s. Qed.

Lemma reads_only_throw {A : Type} (e : exn) : reads_only (@throw A e).
Proof. by intros s. Qed.

Lemma reads_only_bind {A B : Type} (m : M A) (f : A → M B) :
  reads_only m → (∀ a, reads_only (f a)) → reads_only (m ≫= f).
Proof.
  intros Hm Hf s. specialize (Hm s). unfold mbind, M_bind.
  destruct (m s) as [[e|a] s1]; simpl in *; subst; [done | apply Hf].
Qed.

Lemma reads_only_get_column (frame : DataFrame) (name : string) :
  reads_only (get_column frame name).
Proof.
  intros s. rewrite get_column_eq. by destruct (objects s !! _data frame).
Qed.

Lemma reads_only_forEach_from {A S : Type} (body : A → nat → S → M S)
    (l : list A) (j : nat) (t : S) :
  (∀ x i u, reads_only (body x i u)) → reads_only (forEach_from body j l t).
Proof.
  intros Hbody. revert j t. induction l as [|x l IH]; intros j t; simpl.
  - apply reads_only_ret.
  - apply reads_only_bind; [apply Hbody | intros u; apply IH].
Qed.

Lemma reads_only_for_rangeM {S : Type} (body : nat → S → M S) (n : nat) (t : S) :
  (∀ i u, reads_only (body i u)) → reads_only (for_rangeM n body t).
Proof.
  intros Hbody. induction n as [|n IH]; simpl.
  - apply reads_only_ret.
  - apply reads_only_bind; [apply IH | intros u; apply Hbody].
Qed.

Lemma reads_only_validateInputs (this : AncovaAnalysis) :
  reads_only (_validateInputs this).
Proof.
  unfold _validateInputs.
  apply reads_only_bind; [apply reads_only_get_column|]. intros [dep|].
  2:{ apply reads_only_throw. }
  destruct (negb _); [apply reads_only_throw|].
  apply reads_only_bind.
  - apply reads_only_forEach_from. intros covar i u.
    apply reads_only_bind; [apply reads_only_get_column|]. intros [c|].
    + destruct (negb _); [apply reads_only_throw | apply reads_only_ret].
    + apply reads_only_throw.
  - intros _. apply reads_only_bind; [apply reads_only_get_column|].
    intros [g|]; [apply reads_only_ret | apply reads_only_throw].
Qed.

(** X3. Constructing an analysis (validation included) and building a
    design matrix only read: whether they return or throw, the store at
    the end is the store at the start, so no column is written and no
    object or array is created. *)
Theorem constructor_and_builder_read_only (this : AncovaAnalysis)
    (data : data_arg) (options : Options) (frame : DataFrame)
    (predictors : list string) (s : store) :
  (_validateInputs this s).2 = s
  ∧ (constructor data options s).2 = s
  ∧ (_buildDesignMatrix this frame predictors s).2 = s.
Proof.
  split; [apply reads_only_validateInputs|]. split.
  - destruct data as [| |frame']; [done|done|]. simpl.
    apply reads_only_bind; [apply reads_only_validateInputs|].
    intros _. apply reads_only_ret.
  - unfold _buildDesignMatrix. apply reads_only_bind.
    + apply reads_only_forEach_from. intros pred j X.
      apply reads_only_for_rangeM. intros i X'.
      apply reads_only_bind; [apply reads_only_get_column|].
      intros [vals|]; [apply reads_only_ret | apply reads_only_throw].
    + intros X. apply reads_only_bind; [apply reads_only_get_column|].
      intros [y|]; [apply reads_only_ret | apply reads_only_throw].
Qed.

(** ** The design matrix: zero rows, missing columns, shape *)

Lemma fill_column_missing (frame : DataFrame) (pred : string) (s : store)
    (n j : nat) (X : list (list value)) :
  column_in s frame pred = None →
  (0 < n)%nat →
  for_rangeM n (fun i (X : list (list value)) =>
      col ← get_column frame pred;
      match col with
      | None => throw TypeError
      | Some vals =>
        mret (alter (<[(j + 1)%nat := default VUndef (vals !! i)]>) i X)
      end) X s
  = (inl TypeError, s).
Proof.
  intros Hcol Hn.
  assert (Hbody : ∀ (i : nat) (X' : list (list value)),
    (col ← get_column frame pred;
     match col return M (list (list value)) with
     | None => throw TypeError
     | Some vals =>
       mret (alter (<[(j + 1)%nat := default VUndef (vals !! i)]>) i X')
     end) s = (inl TypeError, s)).
  { intros i X'. pose proof (get_column_eq frame pred s) as Hget.
    destruct (objects s !! _data frame).
    - rewrite Hcol in Hget. by erewrite bind_run by exact Hget.
    - by apply bind_throw. }
  induction n as [|n IH]; [lia|]. simpl. destruct n as [|n].
  - simpl. rewrite (bind_run _ _ s s X) by reflexivity. apply Hbody.
  - apply bind_throw, IH. lia.
Qed.

Lemma fill_no_rows (frame : DataFrame) (s : store) (predictors : list string)
    (j : nat) (X : list (list value)) :
  forEach_from (fun pred j =>
      for_rangeM 0 (fun i (X : list (list value)) =>
        col ← get_column frame pred;
        match col with
        | None => throw TypeError
        | Some vals =>
          mret (alter (<[(j + 1)%nat := default VUndef (vals !! i)]>) i X)
        end)) j predictors X s
  = (inr X, s).
Proof.
  revert j. induction predictors as [|pred predictors IH]; intros j; simpl; [done|].
  rewrite (bind_run _ _ s s X) by reflexivity. apply IH.
Qed.

Lemma fill_columns_missing (frame : DataFrame) (s : store) (n : nat)
    (predictors : list string) (j : nat) (X : list (list value)) :
  (0 < n)%nat →
  Exists (λ pred, column_in s frame pred = None) predictors →
  forEach_from (fun pred j =>
      for_rangeM n (fun i (X : list (list value)) =>
        col ← get_column frame pred;
        match col with
        | None => throw TypeError
        | Some vals =>
          mret (alter (<[(j + 1)%nat := default VUndef (vals !! i)]>) i X)
        end)) j predictors X s
  = (inl TypeError, s).
Proof.
  intros Hn Hmissing. revert j X.
  induction predictors as [|pred predictors IH]; intros j X.
  - by apply Exists_nil in Hmissing.
  - simpl. destruct (column_in s frame pred) as [vals|] eqn:Hcol.
    + erewrite bind_run by by apply fill_column_run.
      apply IH. apply Exists_cons in Hmissing as [Hhere|Hlater]; [congruence|done].
    + apply bind_throw. by apply fill_column_missing.
Qed.

Lemma columns_cases (frame : DataFrame) (s : store) (predictors : list string) :
  Exists (λ pred, column_in s frame pred = None) predictors
  ∨ ∃ cols, Forall2 (λ pred vals, column_in s frame pred = Some vals) predictors cols.
Proof.
  induction predictors as [|pred predictors [IH|[cols IH]]].
  - right. exists []. constructor.
  - left. by apply Exists_cons_tl.
  - destruct (column_in s frame pred) as [vals|] eqn:Hcol.
    + right. exists (vals :: cols). by constructor.
    + left. by apply Exists_cons_hd.
Qed.

Lemma fill_design_rows (frame : DataFrame) (s : store) (predictors : list string)
    (cols : list (list value)) :
  Forall2 (λ pred vals, column_in s frame pred = Some vals) predictors cols →
  fill_design frame predictors s
  = (inr (map (design_row cols) (seq 0 (_length frame))), s).
Proof.
  intros Hcols. unfold fill_design, forEach.
  rewrite (fill_columns_run frame s _ predictors cols) by done.
  rewrite replicate_rows, (Forall2_length _ _ _ Hcols), Nat.add_1_r.
  pose proof (fill_columns_rows (_length frame) cols []) as Hrows.
  simpl in Hrows. simpl replicate. by rewrite Hrows.
Qed.

Lemma reads_only_fill_design (frame : DataFrame) (predictors : list string) :
  reads_only (fill_design frame predictors).
Proof.
  apply reads_only_forEach_from. intros pred j X.
  apply reads_only_for_rangeM. intros i X'.
  apply reads_only_bind; [apply reads_only_get_column|].
  intros [vals|]; [apply reads_only_ret | apply reads_only_throw].
Qed.

Lemma buildDesignMatrix_fill (this : AncovaAnalysis) (frame : DataFrame)
    (predictors : list string) :
  _buildDesignMatrix this frame predictors
  = (X ← fill_design frame predictors;
     dep ← get_column frame (dependentVar this);
     match dep with
     | None => throw TypeError
     | Some y => mret (X, y)
     end).
Proof. reflexivity. Qed.

(** X4. For a frame of zero rows the builder never looks at a predictor
    column: whatever the predictor names, also names of no column, it
    returns the empty matrix with the outcome column; the fitter then
    throws a TypeError on that matrix for every outcome and every jStat. *)
Theorem buildDesignMatrix_no_rows (E : Engine) (this : AncovaAnalysis)
    (frame : DataFrame) (predictors : list string) (s : store) (y : list value)
    (jStat : JStat) :
  _length frame = 0%nat →
  column_in s frame (dependentVar this) = Some y →
  _buildDesignMatrix this frame predictors s = (inr ([], y), s)
  ∧ _fitModel E [] y jStat = inl TypeError.
Proof.
  intros Hn Hy. split; [|done].
  rewrite buildDesignMatrix_fill. unfold fill_design, forEach. rewrite Hn.
  rewrite (bind_run _ _ s s []) by apply fill_no_rows.
  by rewrite (bind_run _ _ s s (Some y)) by by apply get_column_Some.
Qed.

Lemma buildDesignMatrix_no_rows_witness :
  _buildDesignMatrix (Sample.this_of (Sample.frame_of "string" 0))
    (Sample.frame_of "string" 0) ["age"; "no such column"]
    (Sample.frame_store [] [] [])
  = (inr ([], []), Sample.frame_store [] [] [])
  ∧ _fitModel Sample.engine [] [] Sample.jStat = inl TypeError.
Proof.
  apply (buildDesignMatrix_no_rows Sample.engine
           (Sample.this_of (Sample.frame_of "string" 0))).
  - reflexivity.
  - vm_compute. reflexivity.
Defined.

(** X5. For a frame with at least one row, the builder throws a TypeError
    when a predictor names no column of the frame, or the dependent
    variable names none, the name not being an inherited property name
    (for which [undefined] is not what is read); it has no error of its
    own for a missing column. *)
Theorem buildDesignMatrix_missing_column (this : AncovaAnalysis)
    (frame : DataFrame) (predictors : list string) (s : store) :
  (0 < _length frame)%nat →
  Exists (λ pred, column_in s frame pred = None ∧ own_name pred) predictors
  ∨ (column_in s frame (dependentVar this) = None ∧ own_name (dependentVar this)) →
  _buildDesignMatrix this frame predictors s = (inl TypeError, s).
Proof.
  intros Hn Hmissing. rewrite buildDesignMatrix_fill.
  destruct (columns_cases frame s predictors) as [Hpred|[cols Hcols]].
  - apply bind_throw. unfold fill_design, forEach. by apply fill_columns_missing.
  - destruct Hmissing as [Hpred|[Hdep _]].
    + apply bind_throw. unfold fill_design, forEach. apply fill_columns_missing; [done|].
      eapply Exists_impl; [exact Hpred|]. by intros pred [? _].
    + erewrite bind_run by by apply fill_design_rows.
      pose proof (get_column_eq frame (dependentVar this) s) as Hget.
      destruct (objects s !! _data frame).
      * rewrite Hdep in Hget. by erewrite bind_run by exact Hget.
      * by apply bind_throw.
Qed.

Lemma buildDesignMatrix_missing_column_witness :
  _buildDesignMatrix (Sample.this_of Sample.scenario_frame) Sample.scenario_frame
    ["age"; "group_B"] Sample.scenario_store
  = (inl TypeError, Sample.scenario_store).
Proof.
  apply buildDesignMatrix_missing_column.
  - simpl. lia.
  - left. apply Exists_cons_tl, Exists_cons_hd. split.
    + vm_compute. reflexivity.
    + apply own_name_check. reflexivity.
Defined.

Lemma buildDesignMatrix_inr (this : AncovaAnalysis)
    (frame : DataFrame) (predictors : list string) (s s' : store)
    (X : list (list value)) (y : list value) :
  _buildDesignMatrix this frame predictors s = (inr (X, y), s') →
  s' = s
  ∧ column_in s frame (dependentVar this) = Some y
  ∧ ((_length frame = 0%nat ∧ X = [])
     ∨ ((0 < _length frame)%nat
        ∧ ∃ cols,
            Forall2 (λ pred vals, column_in s frame pred = Some vals) predictors cols
            ∧ X = map (design_row cols) (seq 0 (_length frame)))).
Proof.
  intros Hrun. rewrite buildDesignMatrix_fill in Hrun.
  apply bind_inr in Hrun as (X' & s1 & Hfill & Hrun).
  apply bind_inr in Hrun as (dep & s2 & Hdep & Hrun).
  assert (Hs1 : s1 = s).
  { pose proof (reads_only_fill_design frame predictors s) as Hro.
    by rewrite Hfill in Hro. }
  subst s1. rewrite get_column_eq in Hdep.
  destruct (objects s !! _data frame) as [props|]; [|done].
  injection Hdep as <- <-.
  destruct (column_in s frame (dependentVar this)) as [y'|]; [|done].
  injection Hrun as <- <- <-.
  split; [done|]. split; [done|].
  destruct (Nat.eq_dec (_length frame) 0%nat) as [Hzero|Hpos].
  - left. split; [done|].
    unfold fill_design, forEach in Hfill. rewrite Hzero in Hfill.
    rewrite fill_no_rows in Hfill. by injection Hfill as <-.
  - right. split; [lia|].
    destruct (columns_cases frame s predictors) as [Hmissing|[cols Hcols]].
    { unfold fill_design, forEach in Hfill.
      rewrite fill_columns_missing in Hfill by (done || lia). done. }
    rewrite (fill_design_rows frame s predictors cols Hcols) in Hfill.
    injection Hfill as <-. by exists cols.
Qed.

(** X6. Whenever the builder returns for predictor names and a dependent
    variable that are not inherited property names, the store is
    unchanged, [y] is the column of the dependent variable, and [X] has
    [_length] rows, each of [k + 1] cells beginning with the intercept 1,
    whatever the lengths of the predictor columns; with at least one row
    every predictor names a column, and row [i] holds cell [i] of each
    ([undefined] past the end of a shorter column). *)
Theorem buildDesignMatrix_returns_shape (this : AncovaAnalysis)
    (frame : DataFrame) (predictors : list string) (s s' : store)
    (X : list (list value)) (y : list value) :
  Forall own_name predictors →
  own_name (dependentVar this) →
  _buildDesignMatrix this frame predictors s = (inr (X, y), s') →
  s' = s
  ∧ column_in s frame (dependentVar this) = Some y
  ∧ length X = _length frame
  ∧ Forall (λ row, length row = (length predictors + 1)%nat
                   ∧ row !! 0%nat = Some (VNum 1)) X
  ∧ ((0 < _length frame)%nat →
     ∃ cols, Forall2 (λ pred vals, column_in s frame pred = Some vals) predictors cols
             ∧ X = map (design_row cols) (seq 0 (_length frame))).
Proof.
  intros _ _ Hrun.
  destruct (buildDesignMatrix_inr _ _ _ _ _ _ _ Hrun)
    as (Hs & Hy & [[Hzero ->]|[Hpos (cols & Hcols & ->)]]).
  - split; [done|]. split; [done|]. split; [done|]. split; [constructor|]. lia.
  - split; [done|]. split; [done|].
    split; [by rewrite length_map, length_seq|]. split.
    + apply Forall_forall. intros row Hrow.
      apply list_elem_of_fmap in Hrow as (i & -> & _).
      unfold design_row. simpl. rewrite length_map, (Forall2_length _ _ _ Hcols).
      split; [lia | done].
    + intros _. by exists cols.
Qed.

Lemma buildDesignMatrix_returns_shape_witness :
  length [Sample.nums [1; 20]; Sample.nums [1; 22]; Sample.nums [1; 21];
          Sample.nums [1; 30]; Sample.nums [1; 32]; Sample.nums [1; 31]]
  = _length Sample.scenario_frame.
Proof.
  assert (Hrun : _buildDesignMatrix (Sample.this_of Sample.scenario_frame)
                   Sample.scenario_frame ["age"] Sample.scenario_store
                 = (inr ([Sample.nums [1; 20]; Sample.nums [1; 22]; Sample.nums [1; 21];
                          Sample.nums [1; 30]; Sample.nums [1; 32]; Sample.nums [1; 31]],
                         Sample.nums [50; 52; 51; 65; 67; 66]), Sample.scenario_store))
    by (vm_compute; reflexivity).
  destruct (buildDesignMatrix_returns_shape (Sample.this_of Sample.scenario_frame)
              Sample.scenario_frame ["age"] Sample.scenario_store
              Sample.scenario_store _ _
              (Forall_cons_2 _ _ _ (own_name_check "age" eq_refl) (Forall_nil_2 _))
              (own_name_check "outcome" eq_refl) Hrun)
    as (_ & _ & Hlen & _).
  exact Hlen.
Defined.

(** ** The normal equations: what the accumulation loops compute *)

Lemma float_mul_comm (x y : float) : (x * y)%float = (y * x)%float.
Proof.
  apply Prim2SF_inj. rewrite !FloatAxioms.mul_spec. unfold SF64mul, SFmul.
  destruct (Prim2SF x) as [sx|sx| |sx mx ex], (Prim2SF y) as [sy|sy| |sy my ey];
    try reflexivity; rewrite (xorb_comm sx sy); try reflexivity.
  by rewrite (Pos.mul_comm mx my), (Z.add_comm ex ey).
Qed.

Lemma for_range_invariant {S : Type} (P : S → Prop) (n : nat)
    (body : nat → S → S) (s : S) :
  (∀ i t, P t → P (body i t)) → P s → P (for_range n body s).
Proof. intros Hbody Hs. induction n as [|n IH]; simpl; auto. Qed.

Lemma gram_length (E : Engine) (X : list (list value)) (n p : nat) :
  length (gram E X n p) = p.
Proof.
  unfold gram.
  apply (for_range_invariant (λ G : list (list float), length G = p)).
  - intros i G HG.
    apply (for_range_invariant (λ G : list (list float), length G = p)); [|done].
    intros j G' HG'.
    apply (for_range_invariant (λ G : list (list float), length G = p)); [|done].
    intros k G'' HG''. by rewrite length_alter.
  - apply length_replicate.
Qed.

Lemma row_of_entries {A : Type} (row : list A) (p : nat) (f : nat → A) :
  (∀ k, row !! k = if decide (k < p)%nat then Some (f k) else None) →
  length row = p.
Proof.
  intros Hrow. destruct (Nat.lt_trichotomy (length row) p) as [Hlt|[Heq|Hgt]];
    [|done|].
  - pose proof (Hrow (length row)) as Hk.
    rewrite decide_True in Hk by done.
    apply lookup_lt_Some in Hk. lia.
  - pose proof (Hrow p) as Hk. rewrite decide_False in Hk by lia.
    apply lookup_ge_None in Hk. lia.
Qed.

(** X7. The triple loop of [_fitModel] leaves in [XtX] a [p] by [p]
    matrix whose slot [(j, k)] is the sum over the rows [i = 0 .. n-1],
    added in that order starting from 0, of [X[i][j] * X[i][k]]. *)
Theorem gram_is_sum_matrix (E : Engine) (X : list (list value)) (n p : nat) :
  length (gram E X n p) = p
  ∧ ∀ j, (j < p)%nat →
      ∃ row, gram E X n p !! j = Some row
             ∧ length row = p
             ∧ ∀ k, (k < p)%nat → row !! k = Some (gram_sum E X n j k).
Proof.
  split; [apply gram_length|]. intros j Hj.
  destruct (lookup_lt_is_Some_2 (gram E X n p) j) as [row Hrow];
    [by rewrite gram_length|].
  exists row. split; [done|].
  assert (Hentries : ∀ k, row !! k
            = if decide (k < p)%nat then Some (gram_sum E X n j k) else None).
  { intros k. pose proof (gram_entry E X n p j k) as Hjk.
    unfold entry in Hjk. rewrite Hrow in Hjk. simpl in Hjk. rewrite Hjk.
    destruct (decide (j < p ∧ k < p)%nat), (decide (k < p)%nat); try done; lia. }
  split; [by eapply row_of_entries|].
  intros k Hk. rewrite Hentries. by rewrite decide_True.
Qed.

Lemma gram_is_sum_matrix_witness :
  ∃ row, XtX Sample.engine Sample.X_square !! 1%nat = Some row
         ∧ length row = 2%nat
         ∧ ∀ k, (k < 2)%nat →
             row !! k = Some (gram_sum Sample.engine Sample.X_square 2 1 k).
Proof.
  apply (proj2 (gram_is_sum_matrix Sample.engine Sample.X_square 2 2) 1%nat). lia.
Defined.

Lemma gram_sum_sym (E : Engine) (X : list (list value)) (n j k : nat) :
  gram_sum E X n j k = gram_sum E X n k j.
Proof.
  unfold gram_sum. induction n as [|n IH]; simpl; [done|].
  by rewrite IH, float_mul_comm.
Qed.

(** X8. The Gram matrix the loops compute is symmetric, slot for slot and
    bit for bit: [XtX[j][k]] and [XtX[k][j]] are the same floating-point
    number. *)
Theorem gram_symmetric (E : Engine) (X : list (list value)) (n p j k : nat) :
  entry (gram E X n p) j k = entry (gram E X n p) k j.
Proof.
  rewrite !gram_entry.
  destruct (decide (j < p ∧ k < p)%nat), (decide (k < p ∧ j < p)%nat);
    try done; try lia.
  f_equal. apply gram_sum_sym.
Qed.

Lemma cross_lookup (E : Engine) (X : list (list value)) (y : list value)
    (n p j : nat) :
  cross E X y n p !! j
  = if decide (j < p)%nat then Some (cross_sum E X y n j) else None.
Proof.
  unfold cross, cross_sum. induction n as [|n IH]; simpl.
  - destruct (decide (j < p)%nat).
    + by apply lookup_replicate_2.
    + apply lookup_replicate_None. lia.
  - rewrite for_range_alter_lookup, IH. by destruct (decide (j < p)%nat).
Qed.

(** X9. The double loop of [_fitModel] leaves in [XtY] a vector of [p]
    slots whose slot [j] is the sum over the rows [i = 0 .. n-1], added
    in that order starting from 0, of [X[i][j] * y[i]]; a row without an
    outcome ([y] shorter than [X]) contributes NaN. *)
Theorem cross_is_sum_vector (E : Engine) (X : list (list value)) (y : list value)
    (n p : nat) :
  length (cross E X y n p) = p
  ∧ (∀ j, (j < p)%nat → cross E X y n p !! j = Some (cross_sum E X y n j))
  ∧ (∀ i j, (i < n)%nat → y !! i = None →
       is_nan (xnum E X i j * ToNumber E (default VUndef (y !! i)))%float = true).
Proof.
  split; [|split].
  - eapply row_of_entries. apply cross_lookup.
  - intros j Hj. by rewrite cross_lookup, decide_True.
  - intros i j _ ->. simpl. rewrite float_mul_comm.
    unfold is_nan. rewrite FloatAxioms.eqb_spec, FloatAxioms.mul_spec. unfold SF64mul, SFmul.
    change (Prim2SF nan) with S754_nan. done.
Qed.

Lemma cross_is_sum_vector_witness :
  cross Sample.engine Sample.X_square Sample.y_square 2 2 !! 1%nat
  = Some (cross_sum Sample.engine Sample.X_square Sample.y_square 2 1).
Proof.
  apply (proj1 (proj2 (cross_is_sum_vector Sample.engine Sample.X_square
                         Sample.y_square 2 2))). lia.
Defined.

(** ** The fitted model: when it exists and how its parts line up *)

Lemma fitModel_inr (E : Engine) (jStat : JStat) (X : list (list value))
    (y : list value) (m : FittedModel) :
  _fitModel E X y jStat = inr m →
  X ≠ [] ∧ passes_singularity_check E jStat X.
Proof.
  intros Hfit. destruct X as [|row0 rows]; [done|]. split; [done|].
  unfold passes_singularity_check, XtX. simpl head. simpl default.
  unfold _fitModel in Hfit. by destruct (PrimFloat.ltb _ tolerance).
Qed.

(** X10. A model is returned only for a design with at least one row that
    passed the singularity check.  In it there is one fitted value per row
    of [X] and one residual per outcome, residual [i] being
    [y[i] - yhat[i]]; the coefficients, standard errors, t statistics and
    p-values all have one entry per row of the matrix [jStat.inv]
    returned; and [df] is the number of rows minus the length of the
    first row. *)
Theorem fitModel_returns_aligned (E : Engine) (jStat : JStat)
    (X : list (list value)) (y : list value) (m : FittedModel) :
  _fitModel E X y jStat = inr m →
  X ≠ []
  ∧ passes_singularity_check E jStat X
  ∧ length (yhat m) = length X
  ∧ length (residuals m) = length y
  ∧ (∀ i v, y !! i = Some v →
       residuals m !! i = Some (ToNumber E v - num_at (yhat m) i)%float)
  ∧ length (beta m) = length (XtX_inv m)
  ∧ length (se m) = length (XtX_inv m)
  ∧ length (tStats m) = length (XtX_inv m)
  ∧ length (pValues m) = length (XtX_inv m)
  ∧ df m = Z.of_nat (length X) - Z.of_nat (length (default [] (head X))).
Proof.
  intros Hfit. destruct (fitModel_inr E jStat X y m Hfit) as [HX Hpass].
  split; [done|]. split; [done|].
  destruct X as [|row0 rows]; [done|].
  unfold passes_singularity_check, XtX in Hpass. simpl head in Hpass.
  simpl default in Hpass. unfold _fitModel in Hfit. rewrite Hpass in Hfit.
  injection Hfit as <-. unfold yhat, residuals, beta, se, tStats, pValues, df, XtX_inv.
  split; [simpl; by rewrite length_map|].
  split; [by rewrite length_imap|]. split.
  { intros i v Hv. by rewrite list_lookup_imap, Hv. }
  split; [by rewrite length_map|]. split; [by rewrite length_imap|].
  split; [by rewrite length_imap, length_map|].
  split; [by rewrite length_map, length_imap, length_map|]. done.
Qed.

Lemma fitModel_returns_aligned_witness :
  ∃ m, _fitModel Sample.engine Sample.X_drift Sample.y_drift Sample.jStat = inr m
       ∧ length (yhat m) = 3%nat ∧ length (beta m) = length (XtX_inv m).
Proof.
  eexists. split; [vm_compute; reflexivity|].
  match goal with
  | |- length (yhat ?m) = _ ∧ _ =>
    destruct (fitModel_returns_aligned Sample.engine Sample.jStat Sample.X_drift
                Sample.y_drift m) as (_ & _ & Hyhat & _ & _ & Hbeta & _)
  end.
  - vm_compute. reflexivity.
  - split; [exact Hyhat | exact Hbeta].
Defined.

(** ** The two models of one analysis *)

Lemma fitModel_inr_df (E : Engine) (jStat : JStat) (X : list (list value))
    (y : list value) (m : FittedModel) :
  _fitModel E X y jStat = inr m →
  df m = Z.of_nat (length X) - Z.of_nat (length (default [] (head X)))
  ∧ length (yhat m) = length X
  ∧ length (residuals m) = length y.
Proof.
  intros Hfit. destruct X as [|row0 rows]; [done|].
  unfold _fitModel in Hfit. destruct (PrimFloat.ltb _ tolerance); [done|].
  injection Hfit as <-. unfold df, yhat, residuals.
  split; [done|]. split; [simpl; by rewrite length_map | by rewrite length_imap].
Qed.

Lemma buildDesignMatrix_fit_df (E : Engine) (this : AncovaAnalysis)
    (frame : DataFrame) (predictors : list string) (s s' : store)
    (X : list (list value)) (y : list value) (jStat : JStat) (m : FittedModel) :
  _buildDesignMatrix this frame predictors s = (inr (X, y), s') →
  _fitModel E X y jStat = inr m →
  s' = s
  ∧ column_in s frame (dependentVar this) = Some y
  ∧ df m = Z.of_nat (_length frame) - (Z.of_nat (length predictors) + 1)
  ∧ length (yhat m) = _length frame
  ∧ length (residuals m) = length y.
Proof.
  intros Hbuild Hfit.
  destruct (buildDesignMatrix_inr _ _ _ _ _ _ _ Hbuild)
    as (Hs & Hy & [[Hzero ->]|[Hpos (cols & Hcols & ->)]]); [done|].
  destruct (fitModel_inr_df _ _ _ _ _ Hfit) as (Hdf & Hyhat & Hres).
  split; [done|]. split; [done|].
  rewrite length_map, length_seq in Hdf, Hyhat.
  split; [|done]. rewrite Hdf.
  destruct (_length frame) as [|n]; [lia|]. simpl head. simpl default.
  unfold design_row. simpl length. rewrite length_map, (Forall2_length _ _ _ Hcols). lia.
Qed.

(** X11. In every result [analyze] returns, the two models are fitted to
    the same rows and the same outcome: they have the same number of
    fitted values and of residuals, and the reduced model has exactly as
    many more degrees of freedom as there are non-reference levels (dummy
    columns); the levels are the sorted distinct values of the group
    column of the input frame. *)
Theorem analyze_models_nested (E : Engine) (this : AncovaAnalysis)
    (jStat : JStat) (s s' : store) (r : AncovaResult) :
  analyze E this jStat s = (inr r, s') →
  df (reducedModel r) - df (fullModel r) = Z.of_nat (length (tail (levels r)))
  ∧ length (yhat (reducedModel r)) = length (yhat (fullModel r))
  ∧ length (residuals (reducedModel r)) = length (residuals (fullModel r))
  ∧ ∀ g, column_in s (this_df this) (groupVar this) = Some g →
      levels r = sort E (spread_set g).
Proof.
  unfold analyze. intros Hrun.
  apply bind_inr in Hrun as ([enc lv] & s1 & Henc & Hrun).
  apply bind_inr in Hrun as ([X1 y1] & s2 & Hb1 & Hrun).
  apply bind_inr in Hrun as (rm & s3 & Hf1 & Hrun).
  apply lift_inr in Hf1 as [Hf1 ->].
  apply bind_inr in Hrun as ([X2 y2] & s4 & Hb2 & Hrun).
  apply bind_inr in Hrun as (fm & s5 & Hf2 & Hrun).
  apply lift_inr in Hf2 as [Hf2 ->].
  apply bind_inr in Hrun as (pf & s6 & _ & Hrun).
  injection Hrun as <- <-. simpl in *.
  destruct (buildDesignMatrix_fit_df _ _ _ _ _ _ _ _ _ _ Hb1 Hf1)
    as (-> & Hy1 & Hdf1 & Hyhat1 & Hres1).
  destruct (buildDesignMatrix_fit_df _ _ _ _ _ _ _ _ _ _ Hb2 Hf2)
    as (-> & Hy2 & Hdf2 & Hyhat2 & Hres2).
  split.
  { rewrite Hdf1, Hdf2, length_app, length_map. lia. }
  split; [congruence|]. split; [congruence|].
  intros g Hg.
  destruct (column_in_object _ _ _ _ Hg) as [props Hprops].
  destruct (encodeDummies_run E this s props g Hprops Hg)
    as (enc' & s1' & cols & Hrun' & _).
  rewrite Hrun' in Henc. by injection Henc as _ <- _.
Qed.

Lemma analyze_models_nested_witness :
  ∃ r s', analyze Sample.engine (Sample.this_of Sample.scenario_frame) Sample.jStat
            Sample.scenario_store = (inr r, s')
          ∧ df (reducedModel r) - df (fullModel r) = 1.
Proof.
  eexists. eexists. split; [vm_compute; reflexivity|].
  match goal with
  | |- df (reducedModel ?r) - _ = _ =>
    destruct (analyze_models_nested Sample.engine
                (Sample.this_of Sample.scenario_frame) Sample.jStat
                Sample.scenario_store
                (analyze Sample.engine (Sample.this_of Sample.scenario_frame)
                   Sample.jStat Sample.scenario_store).2 r) as (Hdf & _)
  end.
  - vm_compute. reflexivity.
  - exact Hdf.
Defined.

(** ** The constructor on a DataFrame *)

(** X12. Given a DataFrame whose [_data] object exists and a group
    variable that is not an inherited property name, the constructor
    returns exactly when the inputs are valid, and then returns the
    object holding the frame, the dependent and group variable names and
    the covariates as a list (a single name becomes the one-element
    list), in the store it started in. *)
Theorem constructor_returns_iff (frame : DataFrame) (options : Options)
    (s s' : store) (props : gmap string loc) (this : AncovaAnalysis) :
  objects s !! _data frame = Some props →
  own_name (opt_groupVar options) →
  constructor (DataIsFrame frame) options s = (inr this, s')
  ↔ this = this_of_options frame options
    ∧ s' = s
    ∧ valid_inputs (this_of_options frame options) s.
Proof.
  intros Hprops _. simpl. fold (this_of_options frame options). split.
  - intros Hrun. apply bind_inr in Hrun as ([] & s1 & Hval & Hret).
    injection Hret as <- <-.
    pose proof (reads_only_validateInputs (this_of_options frame options) s) as Hro.
    rewrite Hval in Hro. simpl in Hro. subst s1.
    split; [done|]. split; [done|]. by eapply validateInputs_inr.
  - intros (-> & -> & (Hdep & Hty & Hcov & Hg)).
    by rewrite (bind_run _ _ s s tt) by by apply validateInputs_accepts.
Qed.

Lemma constructor_returns_iff_witness :
  constructor (DataIsFrame Sample.scenario_frame) Sample.options Sample.scenario_store
  = (inr (Sample.this_of Sample.scenario_frame), Sample.scenario_store)
  ↔ Sample.this_of Sample.scenario_frame
    = this_of_options Sample.scenario_frame Sample.options
    ∧ Sample.scenario_store = Sample.scenario_store
    ∧ valid_inputs (this_of_options Sample.scenario_frame Sample.options)
        Sample.scenario_store.
Proof.
  eapply (constructor_returns_iff Sample.scenario_frame Sample.options).
  - vm_compute. reflexivity.
  - apply own_name_check. reflexivity.
Defined.

(** ** The encoder: edge cases, string-valued groups *)

(** X13. The encoder throws a TypeError, leaving the store as it was,
    when the [_data] object of the frame is missing.  When the object
    exists but the group variable names no column (and is not an
    inherited property name), it throws nothing: [new Set(undefined)] is
    empty, the loop over the levels has nothing to do, and the encoder
    returns no level. *)
Theorem encodeDummies_missing_group (E : Engine) (this : AncovaAnalysis)
    (s : store) :
  (objects s !! _data (this_df this) = None →
   _encodeDummies E this s = (inl TypeError, s))
  ∧ (∀ props,
       objects s !! _data (this_df this) = Some props →
       column_in s (this_df this) (groupVar this) = None →
       own_name (groupVar this) →
       ∃ enc s', _encodeDummies E this s = (inr (enc, []), s')).
Proof.
  split.
  - intros Hnone. unfold _encodeDummies. apply bind_throw.
    by rewrite get_column_eq, Hnone.
  - intros props Hprops Hg _. unfold _encodeDummies.
    rewrite (bind_run _ _ s s None) by by rewrite get_column_eq, Hprops, Hg.
    simpl default. change (sort E (spread_set [])) with (@nil value).
    rewrite (bind_run _ _ s s props) by (unfold read_object; by rewrite Hprops).
    set (d := fresh (dom (objects s))).
    set (s1 := {| arrays := arrays s; objects := <[d := props]> (objects s) |}).
    rewrite (bind_run _ _ s s1 d) by reflexivity.
    unfold forEach. simpl tail. cbn [forEach_from].
    rewrite (bind_run _ _ s1 s1 tt) by reflexivity.
    assert (Hd : objects s1 !! d = Some props) by apply lookup_insert_eq.
    destruct (DataFrame_new_run d s1 props Hd) as (enc & Henc & Hdata).
    rewrite (bind_run _ _ s1 s1 enc) by exact Henc.
    by exists enc, s1.
Qed.

Lemma encodeDummies_missing_group_witness :
  ∃ enc s',
    _encodeDummies Sample.engine
      {| this_df := Sample.scenario_frame; dependentVar := "outcome";
         covariates := ["age"]; groupVar := "no such column" |}
      Sample.scenario_store = (inr (enc, []), s').
Proof.
  apply (proj2 (encodeDummies_missing_group Sample.engine
            {| this_df := Sample.scenario_frame; dependentVar := "outcome";
               covariates := ["age"]; groupVar := "no such column" |}
            Sample.scenario_store)
          (list_to_map [("group", 0%nat); ("age", 1%nat); ("outcome", 2%nat)])).
  - vm_compute. reflexivity.
  - vm_compute. reflexivity.
  - apply own_name_check. reflexivity.
Defined.






(** ** How many levels *)



